(** * UnityPlan bot: goal store, completion client and command router

    A shallow embedding of [src/bot.py].  The table [goals] is a finite map
    from the primary key to the remaining columns, the handlers run in a
    state-and-exception monad over the world (the table, the wall clock, the
    messages sent and the completion requests issued), and the dispatcher is
    the registration-ordered list of (filter, handler) pairs that aiogram
    walks for every incoming message.

    Faults of the storage engine itself (I/O errors, a full disk) are fatal
    for the turn in the program and are not part of the model.  Identifiers
    are mathematical integers; the driver's refusal of a Python int that
    does not fit in 64 bits is modelled where such an int arises, at the
    goal id that [/done] and [/del] pass to the store ([sqlite_bind]). *)

From Stdlib Require Import ZArith NArith QArith String Ascii.
From Stdlib Require DecimalString.
From stdpp Require Import base option list sorting gmap fin_maps.

#[local] Open Scope Z_scope.

(** ** Python strings *)

(** A Python [str] is a sequence of Unicode code points. *)
Abbreviation str := (list N).

Module PyStr.

(** Literals of the source file are UTF-8; [lit] decodes them. *)
Fixpoint utf8 (need : nat) (acc : N) (bs : list N) : str :=
  match bs with
  | [] => []
  | b :: bs' =>
      match need with
      | O =>
          if (b <? 128)%N then b :: utf8 0 0%N bs'
          else if (b <? 224)%N then utf8 1 (b - 192)%N bs'
          else if (b <? 240)%N then utf8 2 (b - 224)%N bs'
          else utf8 3 (b - 240)%N bs'
      | S n =>
          let acc' := (acc * 64 + (b - 128))%N in
          match n with
          | O => acc' :: utf8 0 0%N bs'
          | S _ => utf8 n acc' bs'
          end
      end
  end.

Definition lit (s : string) : str :=
  utf8 0 0%N (map N_of_ascii (list_ascii_of_string s)).

(** [str.isspace] on one character (CPython's [Py_UNICODE_ISSPACE]). *)
Definition isspace (c : N) : bool :=
  ((9 <=? c) && (c <=? 13) || (28 <=? c) && (c <=? 32) ||
   (c =? 133) || (c =? 160) || (c =? 5760) ||
   (8192 <=? c) && (c <=? 8202) || (c =? 8232) || (c =? 8233) ||
   (c =? 8239) || (c =? 8287) || (c =? 12288))%N.

Fixpoint lstrip (s : str) : str :=
  match s with
  | c :: s' => if isspace c then lstrip s' else s
  | [] => []
  end.

Definition rstrip (s : str) : str := rev (lstrip (rev s)).

(** [s.strip()] *)
Definition strip (s : str) : str := rstrip (lstrip s).

(** The first whitespace-free token of [s] and what follows it. *)
Fixpoint token (s : str) : str * str :=
  match s with
  | c :: s' =>
      if isspace c then ([], s)
      else let '(t, r) := token s' in (c :: t, r)
  | [] => ([], [])
  end.

(** [s.split(maxsplit=1)]: at most one split on a run of whitespace; the
    remainder keeps its trailing whitespace. *)
Definition split1 (s : str) : list str :=
  match lstrip s with
  | [] => []
  | s1 =>
      let '(t, r) := token s1 in
      match lstrip r with
      | [] => [t]
      | r' => [t; r']
      end
  end.

(** [s.partition(sep)] for a one-character separator: the part before the
    first [sep] and the part after it. *)
Fixpoint partition (sep : N) (s : str) : str * str :=
  match s with
  | c :: s' =>
      if (c =? sep)%N then ([], s')
      else let '(a, b) := partition sep s' in (c :: a, b)
  | [] => ([], [])
  end.

Fixpoint startswith (p s : str) : bool :=
  match p, s with
  | [], _ => true
  | a :: p', b :: s' => (a =? b)%N && startswith p' s'
  | _ :: _, [] => false
  end.

(** [s.replace(old, new)] for a non-empty [old]; [skip] counts the
    characters of a match still to be dropped. *)
Fixpoint replace_from (old new : str) (skip : nat) (s : str) : str :=
  match s with
  | [] => []
  | c :: s' =>
      match skip with
      | S k => replace_from old new k s'
      | O =>
          if startswith old s
          then new ++ replace_from old new (pred (length old)) s'
          else c :: replace_from old new 0 s'
      end
  end.

Definition replace (old new s : str) : str := replace_from old new 0 s.

(** [old in s] *)
Fixpoint contains (p s : str) : bool :=
  startswith p s ||
  match s with
  | [] => false
  | _ :: s' => contains p s'
  end.

(** [sep.join(parts)] *)
Fixpoint join (sep : str) (parts : list str) : str :=
  match parts with
  | [] => []
  | [p] => p
  | p :: ps => p ++ sep ++ join sep ps
  end.

(** [str(n)] for an integer. *)
Definition of_int (n : Z) : str :=
  lit (DecimalString.NilZero.string_of_int (Z.to_int n)).

End PyStr.

(** ** Data model *)

(** One row of table [goals] without its primary key [id]; [is_done] is the
    INTEGER column (0 or 1) and [created_at] the TEXT column. *)
Record Goal := mkGoal {
  user_id : Z;
  text : str;
  is_done : Z;
  created_at : str
}.

#[global] Instance Goal_eq_dec : EqDecision Goal.
Proof. solve_decision. Defined.

(** ** The completion API *)

Inductive Role := system | user.

Record Request := mkRequest {
  model : str;
  messages : list (Role * str);
  temperature : option Q;
  max_tokens : option Z
}.

(** [resp.choices[i].message.content]; the content may be [None]. *)
Record Choice := mkChoice { content : option str }.
Record Response := mkResponse { choices : list Choice }.

(** Python exceptions that occur in the program.  [KeyboardInterrupt] stands
    for the classes that derive from [BaseException] only. *)
Inductive PyExc :=
  | APIConnectionError | APITimeoutError | APIStatusError (code : Z)
  | IndexError | AttributeError | ValueError | TypeError | OverflowError
  | KeyboardInterrupt.

Definition isinstance_Exception (e : PyExc) : bool :=
  match e with
  | KeyboardInterrupt => false
  | _ => true
  end.

Inductive RemoteOutcome :=
  | Responds (r : Response)
  | Fails (e : PyExc).

(** ** The chat transport *)

Record Message := mkMessage {
  from_user : option Z;
  msg_text : option str;
  msg_caption : option str
}.

Inductive Keyboard := main_menu.

(** One call of [message.answer]. *)
Record Sent := mkSent {
  sent_text : str;
  parse_mode : option str;
  reply_markup : option Keyboard
}.

(** ** External collaborators

    What the program takes from outside the repository: Unicode's table of
    digits behind [str.isdigit], Python's [int()] on a string (a value or
    [ValueError]), [datetime.isoformat], the bot's own user name against
    which a [/cmd@name] mention is checked, the hosted completion endpoint,
    and the time that passes before the wall clock is read. *)
Record Env := mkEnv {
  numeric_digit : N -> bool;
  py_int : str -> option Z;
  isoformat : Z -> str;
  mention_ok : str -> bool;
  chat_completions_create : Request -> RemoteOutcome;
  elapsed : Z -> N
}.

(** In the ASCII range the digits are exactly [0] to [9]. *)
Definition ascii_digits (E : Env) : Prop :=
  forall c : N, (c < 128)%N ->
    numeric_digit E c = ((48 <=? c) && (c <=? 57))%N.

(** ** World and effects *)

Record World := mkWorld {
  goals : gmap Z Goal;
  sqlite_sequence : Z;
  clock : Z;
  outbox : list Sent;
  requests : list Request;
  errlog : list PyExc
}.

Definition set_goals (t : gmap Z Goal) (w : World) : World :=
  mkWorld t (sqlite_sequence w) (clock w) (outbox w) (requests w) (errlog w).
Definition set_sqlite_sequence (n : Z) (w : World) : World :=
  mkWorld (goals w) n (clock w) (outbox w) (requests w) (errlog w).
Definition set_clock (t : Z) (w : World) : World :=
  mkWorld (goals w) (sqlite_sequence w) t (outbox w) (requests w) (errlog w).
Definition push_outbox (s : Sent) (w : World) : World :=
  mkWorld (goals w) (sqlite_sequence w) (clock w) (outbox w ++ [s]) (requests w) (errlog w).
Definition push_request (r : Request) (w : World) : World :=
  mkWorld (goals w) (sqlite_sequence w) (clock w) (outbox w) (requests w ++ [r]) (errlog w).
Definition push_errlog (e : PyExc) (w : World) : World :=
  mkWorld (goals w) (sqlite_sequence w) (clock w) (outbox w) (requests w) (errlog w ++ [e]).

Inductive Outcome (A : Type) :=
  | Ret (a : A)
  | Raise (e : PyExc).
Arguments Ret {A} a.
Arguments Raise {A} e.

Definition M (A : Type) : Type := World -> Outcome A * World.

#[global] Instance M_ret : MRet M := fun A a w => (Ret a, w).
#[global] Instance M_bind : MBind M := fun A B f m w =>
  match m w with
  | (Ret a, w') => f a w'
  | (Raise e, w') => (Raise e, w')
  end.

Definition raise {A} (e : PyExc) : M A := fun w => (Raise e, w).

(** [try: body except Exception: handler] *)
Definition try_except {A} (body : M A) (handler : PyExc -> M A) : M A :=
  fun w =>
    match body w with
    | (Ret a, w') => (Ret a, w')
    | (Raise e, w') =>
        if isinstance_Exception e then handler e w' else (Raise e, w')
    end.

(** ** The database driver *)

(** The integers SQLite stores: signed, 64 bits. *)
Definition sqlite_int (n : Z) : bool := (- 2 ^ 63 <=? n) && (n <? 2 ^ 63).

(** [db.execute(sql, params)] binds the parameters before the statement
    runs: a Python int that is no [sqlite_int] raises [OverflowError] and
    nothing is executed.  Of the parameters of the program only the goal id
    of [/done] and [/del] is a Python int of any size (it is
    [int(command.args)]); the sender's id comes from the transport, whose
    ids fit, and rowids come from the table. *)
Definition sqlite_bind {A} (value : Z) (statement : M A) : M A :=
  if sqlite_int value then statement else raise OverflowError.

(** ** Goal store (SQL over the table) *)

Module Sql.

(** The largest rowid in the table (0 for the empty table). *)
Definition max_rowid (t : gmap Z Goal) : Z :=
  map_fold (fun k _ acc => Z.max k acc) 0 t.

(** The rowid an AUTOINCREMENT key gets: one more than the largest rowid
    the table has ever held. *)
Definition next_rowid (t : gmap Z Goal) (seq : Z) : Z :=
  Z.max seq (max_rowid t) + 1.

(** [WHERE user_id=?] *)
Definition owned_by (u : Z) (kv : Z * Goal) : Prop := user_id kv.2 = u.

(** [WHERE id=? AND user_id=?] *)
Definition id_and_owner (i u : Z) (kv : Z * Goal) : Prop :=
  kv.1 = i /\ user_id kv.2 = u.

#[global] Instance owned_by_dec u kv : Decision (owned_by u kv).
Proof. unfold owned_by. apply _. Defined.
#[global] Instance id_and_owner_dec i u kv : Decision (id_and_owner i u kv).
Proof. unfold id_and_owner. apply _. Defined.

(** [ORDER BY id DESC] *)
Definition id_desc (a b : Z * Goal) : Prop := b.1 <= a.1.
#[global] Instance id_desc_dec a b : Decision (id_desc a b).
Proof. unfold id_desc. apply _. Defined.

(** [SELECT id, text, is_done] *)
Definition columns (kv : Z * Goal) : Z * str * Z :=
  (kv.1, text kv.2, is_done kv.2).

(** The rows a WHERE clause keeps, by descending [id]. *)
Definition sorted_rows (P : Z * Goal -> Prop) `{!forall kv, Decision (P kv)}
    (t : gmap Z Goal) : list (Z * Goal) :=
  merge_sort id_desc (map_to_list (filter P t)).

Definition select (P : Z * Goal -> Prop) `{!forall kv, Decision (P kv)}
    (t : gmap Z Goal) : list (Z * str * Z) :=
  columns <$> sorted_rows P t.

(** Strictly descending primary keys. *)
Definition id_strictly_desc (a b : Z * Goal) : Prop := b.1 < a.1.

(** [cur.rowcount] of an UPDATE or DELETE: the rows the WHERE matched. *)
Definition rowcount (P : Z * Goal -> Prop) `{!forall kv, Decision (P kv)}
    (t : gmap Z Goal) : Z :=
  Z.of_nat (size (filter P t)).

Definition update (set : Goal -> Goal) (P : Z * Goal -> Prop)
    `{!forall kv, Decision (P kv)} (t : gmap Z Goal) : gmap Z Goal :=
  map_imap (fun k g => Some (if decide (P (k, g)) then set g else g)) t.

Definition delete (P : Z * Goal -> Prop) `{!forall kv, Decision (P kv)}
    (t : gmap Z Goal) : gmap Z Goal :=
  filter (fun kv => ~ P kv) t.

(** [SET is_done=1] *)
Definition set_is_done (g : Goal) : Goal :=
  mkGoal (user_id g) (text g) 1 (created_at g).

End Sql.

Section Program.

Context (E : Env).

(** [datetime.utcnow()]: the clock has moved on by [elapsed] since it was
    last looked at. *)
Definition utcnow : M Z := fun w =>
  let t := clock w + Z.of_N (elapsed E (clock w)) in
  (Ret t, set_clock t w).

(** [CREATE TABLE IF NOT EXISTS goals]: an existing table is kept. *)
Definition init_db : M unit := mret tt.

(** [INSERT INTO goals(user_id, text, is_done, created_at) VALUES (?, ?, 0, ?)]
    and [cur.lastrowid]. *)
Definition insert_goal (user_id : Z) (text created_at : str) : M Z := fun w =>
  let lastrowid := Sql.next_rowid (goals w) (sqlite_sequence w) in
  (Ret lastrowid,
   set_sqlite_sequence lastrowid
     (set_goals (<[lastrowid := mkGoal user_id text 0 created_at]> (goals w)) w)).

Definition add_goal (user_id : Z) (text : str) : M Z :=
  now ← utcnow;
  insert_goal user_id text (isoformat E now).

Definition list_goals (user_id : Z) : M (list (Z * str * Z)) := fun w =>
  (Ret (Sql.select (Sql.owned_by user_id) (goals w)), w).

(** [UPDATE goals SET is_done=1 WHERE id=? AND user_id=?] and [cur.rowcount],
    on parameters the driver has bound ([sqlite_bind] is the binding). *)
Definition mark_done (user_id goal_id : Z) : M Z := fun w =>
  (Ret (Sql.rowcount (Sql.id_and_owner goal_id user_id) (goals w)),
   set_goals (Sql.update Sql.set_is_done (Sql.id_and_owner goal_id user_id) (goals w)) w).

(** [DELETE FROM goals WHERE id=? AND user_id=?] and [cur.rowcount], on
    parameters the driver has bound. *)
Definition delete_goal (user_id goal_id : Z) : M Z := fun w =>
  (Ret (Sql.rowcount (Sql.id_and_owner goal_id user_id) (goals w)),
   set_goals (Sql.delete (Sql.id_and_owner goal_id user_id) (goals w)) w).

(** *** Completion client *)

Definition SYSTEM_PROMPT : str :=
  PyStr.lit "You are GPT-5 Thinking, a helpful planning assistant for productivity, goals and daily focus. Answer concisely in Ukrainian unless asked otherwise.".

Definition APOLOGY : str :=
  PyStr.lit "⚠️ Вибач, зараз не вдається отримати відповідь від AI.".

(** The arguments of [client.chat.completions.create] in [ask_openai]; the
    temperature is the decimal literal 0.3. *)
Definition ask_openai_request (prompt : str) : Request :=
  mkRequest (PyStr.lit "gpt-4o-mini")
            [(system, SYSTEM_PROMPT); (user, prompt)]
            (Some (3 # 10)%Q)
            (Some 600).

(** [client.chat.completions.create(...)]: the request goes out and the
    endpoint answers or the SDK raises. *)
Definition create (req : Request) : M Response := fun w =>
  match chat_completions_create E req with
  | Responds r => (Ret r, push_request req w)
  | Fails e => (Raise e, push_request req w)
  end.

(** [resp.choices[0]] *)
Definition first_choice (resp : Response) : M Choice :=
  match choices resp with
  | c :: _ => mret c
  | [] => raise IndexError
  end.

(** [logging.exception(...)] *)
Definition logging_exception (e : PyExc) : M unit := fun w =>
  (Ret tt, push_errlog e w).

Definition ask_openai (prompt : str) : M str :=
  try_except
    (resp ← create (ask_openai_request prompt);
     c ← first_choice resp;
     match content c with
     | Some s => mret (PyStr.strip s)
     | None => raise AttributeError
     end)
    (fun e => _ ← logging_exception e; mret APOLOGY).

(** *** Command handlers *)

(** aiogram's [CommandObject]. *)
Record CommandObject := mkCommandObject {
  prefix : N;
  command : str;
  mention : option str;
  args : option str
}.

Definition answer (text : str) (parse_mode : option str)
    (reply_markup : option Keyboard) : M unit := fun w =>
  (Ret tt, push_outbox (mkSent text parse_mode reply_markup) w).

Definition Markdown : option str := Some (PyStr.lit "Markdown").

(** [message.from_user.id] *)
Definition from_user_id (message : Message) : M Z :=
  match from_user message with
  | Some uid => mret uid
  | None => raise AttributeError
  end.

Definition nl : str := [10%N].

Definition START_TEXT : str :=
  PyStr.lit "👋 Привіт, я UnityPlan Bot з AI!" ++ nl ++
  PyStr.lit "Команди:" ++ nl ++
  PyStr.lit "• /ask твоє_питання — запит до AI" ++ nl ++
  PyStr.lit "• /addgoal Текст цілі — додати" ++ nl ++
  PyStr.lit "• /goals — список цілей" ++ nl ++
  PyStr.lit "• /done ID — позначити виконаною" ++ nl ++
  PyStr.lit "• /del ID — видалити" ++ nl.

Definition start_handler (message : Message) : M unit :=
  answer START_TEXT None (Some main_menu).

Definition USAGE_ASK : str :=
  PyStr.lit "Напиши так: `/ask Допоможи скласти план на день`".
Definition THINKING : str := PyStr.lit "🧠 Думаю над відповіддю…".

Definition cmd_ask (message : Message) (command : CommandObject) : M unit :=
  let question := PyStr.strip (default [] (args command)) in
  match question with
  | [] => answer USAGE_ASK Markdown None
  | _ =>
      _ ← answer THINKING None None;
      a ← ask_openai question;
      answer a None None
  end.

Definition USAGE_ADDGOAL : str :=
  PyStr.lit "Введи так: `/addgoal Купити BMW S1000RR`".

Definition cmd_addgoal (message : Message) (command : CommandObject) : M unit :=
  let text := PyStr.strip (default [] (args command)) in
  match text with
  | [] => answer USAGE_ADDGOAL Markdown None
  | _ =>
      uid ← from_user_id message;
      goal_id ← add_goal uid text;
      answer (PyStr.lit "✅ Ціль додано (ID: " ++ PyStr.of_int goal_id ++ PyStr.lit ")")
             None None
  end.

Definition NO_GOALS : str :=
  PyStr.lit "Поки що немає цілей. Додай через `/addgoal ...`".

(** [f"{status} *{_id}*. {text}"] *)
Definition goal_line (row : Z * str * Z) : str :=
  let '(_id, text, is_done) := row in
  let status := if is_done =? 0 then PyStr.lit "⏳" else PyStr.lit "✅" in
  status ++ PyStr.lit " *" ++ PyStr.of_int _id ++ PyStr.lit "*. " ++ text.

Definition cmd_goals (message : Message) : M unit :=
  uid ← from_user_id message;
  rows ← list_goals uid;
  match rows with
  | [] => answer NO_GOALS Markdown None
  | _ => answer (PyStr.join nl (goal_line <$> rows)) Markdown None
  end.

(** [s.isdigit()]: at least one character and every character a digit. *)
Definition isdigit (s : str) : bool :=
  match s with
  | [] => false
  | _ => forallb (numeric_digit E) s
  end.

(** [int(s)] *)
Definition int (s : str) : M Z :=
  match py_int E s with
  | Some n => mret n
  | None => raise ValueError
  end.

(** [not command.args or not command.args.isdigit()] *)
Definition bad_id_argument (command : CommandObject) : bool :=
  match args command with
  | None => true
  | Some a => negb (isdigit a)
  end.

Definition USAGE_DONE : str :=
  PyStr.lit "Введи так: `/done 12` (де 12 — ID цілі)".
Definition USAGE_DEL : str :=
  PyStr.lit "Введи так: `/del 12` (де 12 — ID цілі)".
Definition NOT_FOUND : str := PyStr.lit "❗️Не знайшов таку ціль.".

Definition cmd_done (message : Message) (command : CommandObject) : M unit :=
  if bad_id_argument command then answer USAGE_DONE Markdown None
  else
    uid ← from_user_id message;
    goal_id ← int (default [] (args command));
    changed ← sqlite_bind goal_id (mark_done uid goal_id);
    answer (if changed =? 0 then NOT_FOUND else PyStr.lit "✅ Готово!") None None.

Definition cmd_del (message : Message) (command : CommandObject) : M unit :=
  if bad_id_argument command then answer USAGE_DEL Markdown None
  else
    uid ← from_user_id message;
    goal_id ← int (default [] (args command));
    deleted ← sqlite_bind goal_id (delete_goal uid goal_id);
    answer (if deleted =? 0 then NOT_FOUND else PyStr.lit "🗑 Видалено.") None None.

Definition text_is (message : Message) (label : string) : bool :=
  bool_decide (msg_text message = Some (PyStr.lit label)).

Definition handle_buttons (message : Message) : M unit :=
  if text_is message "🧠 Запитати AI" then
    answer (PyStr.lit "Напиши команду у форматі: `/ask Твоє запитання`") Markdown None
  else if text_is message "🎯 Мої цілі" then
    cmd_goals message
  else if text_is message "🚀 Новий челендж" then
    answer (PyStr.lit "(Тут пізніше зробимо майстер створення челенджу)") None None
  else if text_is message "📅 План на сьогодні" then
    answer (PyStr.lit "(Тут пізніше підключимо план на день)") None None
  else
    answer (PyStr.lit "Вибери дію з меню 👇") None (Some main_menu).

(** *** The trailing block (lines 191 to 218) *)

Definition ask_ai_request (query : str) : Request :=
  mkRequest (PyStr.lit "gpt-3.5-turbo")
            [(system, PyStr.lit "Ти — корисний асистент UnityPlan, який допомагає людям з цілями, планами і мотивацією.");
             (user, query)]
            None None.

(** [f"{answer}"] of an optional string. *)
Definition format_optional (o : option str) : str :=
  default (PyStr.lit "None") o.

Definition ask_ai (message : Message) : M unit :=
  match msg_text message with
  | None => raise AttributeError
  | Some t =>
      match PyStr.strip (PyStr.replace (PyStr.lit "/ask") [] t) with
      | [] => answer (PyStr.lit "❓ Напиши запит у форматі: `/ask твоє_питання`") None None
      | query =>
          _ ← answer (PyStr.lit "🤖 Думаю над відповіддю...") None None;
          try_except
            (response ← create (ask_ai_request query);
             c ← first_choice response;
             answer (PyStr.lit "🧠 Відповідь від AI:" ++ nl ++ format_optional (content c))
                    None None)
            (fun e =>
               _ ← answer (PyStr.lit "⚠️ Виникла помилка при зверненні до AI.") None None;
               logging_exception e)
      end
  end.

(** *** Dispatcher (aiogram) *)

(** [CommandObject] of a message text: [text.split(maxsplit=1)], then the
    prefix, the command and the mention of the first token. *)
Definition extract_command (text : str) : option CommandObject :=
  match PyStr.split1 text with
  | (p :: rest) :: tail =>
      let '(c, m) := PyStr.partition 64%N rest in
      Some (mkCommandObject p c (match m with [] => None | _ => Some m end) (head tail))
  | _ => None
  end.

(** [message.text or message.caption] *)
Definition text_or_caption (message : Message) : option str :=
  match msg_text message with
  | Some (c :: t) => Some (c :: t)
  | _ => msg_caption message
  end.

Definition validate_prefix (c : CommandObject) : bool := (prefix c =? 47)%N.

Definition validate_mention (c : CommandObject) : bool :=
  match mention c with
  | Some m => mention_ok E m
  | None => true
  end.

(** The filter [Command(name)]: the parsed command when it matches. *)
Definition Command (name : string) (message : Message) : option CommandObject :=
  match text_or_caption message with
  | None | Some [] => None
  | Some t =>
      match extract_command t with
      | Some c =>
          if validate_prefix c && validate_mention c &&
             bool_decide (command c = PyStr.lit name)
          then Some c else None
      | None => None
      end
  end.

Inductive Filter :=
  | FCommand (name : string)
  | FNone.

Inductive Callback :=
  | cb_start_handler | cb_cmd_ask | cb_cmd_addgoal | cb_cmd_goals
  | cb_cmd_done | cb_cmd_del | cb_handle_buttons | cb_ask_ai.

(** The handlers of the message observer, in registration order. *)
Definition Dispatcher := list (Filter * Callback).

(** A filter passes with the keyword arguments it contributes. *)
Definition check (f : Filter) (message : Message) : option (option CommandObject) :=
  match f with
  | FCommand name => Some <$> Command name message
  | FNone => Some None
  end.

(** A handler that asks for [command] without a filter that supplies it
    fails with [TypeError]. *)
Definition with_command (h : CommandObject -> M unit)
    (kw : option CommandObject) : M unit :=
  match kw with
  | Some c => h c
  | None => raise TypeError
  end.

Definition call (cb : Callback) (message : Message) (kw : option CommandObject) : M unit :=
  match cb with
  | cb_start_handler => start_handler message
  | cb_cmd_ask => with_command (cmd_ask message) kw
  | cb_cmd_addgoal => with_command (cmd_addgoal message) kw
  | cb_cmd_goals => cmd_goals message
  | cb_cmd_done => with_command (cmd_done message) kw
  | cb_cmd_del => with_command (cmd_del message) kw
  | cb_handle_buttons => handle_buttons message
  | cb_ask_ai => ask_ai message
  end.

(** The first handler whose filter passes. *)
Fixpoint resolve (dp : Dispatcher) (message : Message)
    : option (Callback * option CommandObject) :=
  match dp with
  | [] => None
  | (f, cb) :: dp' =>
      match check f message with
      | Some kw => Some (cb, kw)
      | None => resolve dp' message
      end
  end.

Definition feed_update (dp : Dispatcher) (message : Message) : M unit :=
  match resolve dp message with
  | Some (cb, kw) => call cb message kw
  | None => mret tt
  end.

(** [dp.start_polling] on updates that arrive one at a time, each after the
    turn before it has ended: an [Exception] out of a handler is logged and
    polling goes on.  Updates that arrive together are handled by the
    program as concurrent tasks, which this loop does not describe; it
    serves to compare dispatchers and to run examples. *)
Fixpoint start_polling (dp : Dispatcher) (updates : list Message) : M unit :=
  match updates with
  | [] => mret tt
  | message :: rest =>
      _ ← try_except (feed_update dp message) logging_exception;
      start_polling dp rest
  end.

Definition main (dp : Dispatcher) (updates : list Message) : M unit :=
  _ ← init_db;
  start_polling dp updates.

(** The [@dp.message(...)] decorators of lines 109 to 181. *)
Definition registered_before_main : Dispatcher :=
  [ (FCommand "start", cb_start_handler);
    (FCommand "ask", cb_cmd_ask);
    (FCommand "addgoal", cb_cmd_addgoal);
    (FCommand "goals", cb_cmd_goals);
    (FCommand "done", cb_cmd_done);
    (FCommand "del", cb_cmd_del);
    (FNone, cb_handle_buttons) ].

(** The decorator of line 196. *)
Definition trailing_registration : Filter * Callback := (FCommand "ask", cb_ask_ai).

(** The module from top to bottom: the registrations, [asyncio.run(main())]
    when the file is the entry point, then the trailing block.  The block
    also binds [client] again, to a client built from the same key; the
    endpoint [chat_completions_create] stands for either. *)
Definition bot_py (is_main : bool) (updates : list Message) : M Dispatcher :=
  let dp := registered_before_main in
  _ ← (if is_main then main dp updates else mret tt);
  mret (dp ++ [trailing_registration]).

(** The module without lines 191 to 218. *)
Definition bot_py_without_trailing_block (is_main : bool) (updates : list Message)
    : M Dispatcher :=
  let dp := registered_before_main in
  _ ← (if is_main then main dp updates else mret tt);
  mret dp.

(** What a run shows to the outside: whether it ended in an exception, and
    the world it left. *)
Definition observable {A} (r : Outcome A * World) : option PyExc * World :=
  (match r.1 with Ret _ => None | Raise e => Some e end, r.2).

(** *** Sequences of store operations *)

Inductive StoreOp :=
  | createGoal (owner_id : Z) (text : str)
  | listGoals (owner_id : Z)
  | markDone (owner_id id : Z)
  | deleteGoal (owner_id id : Z).

Definition run_op (op : StoreOp) : M unit :=
  match op with
  | createGoal u t => _ ← add_goal u t; mret tt
  | listGoals u => _ ← list_goals u; mret tt
  | markDone u i => _ ← mark_done u i; mret tt
  | deleteGoal u i => _ ← delete_goal u i; mret tt
  end.

Fixpoint run_ops (ops : list StoreOp) (w : World) : World :=
  match ops with
  | [] => w
  | op :: ops' => run_ops ops' (run_op op w).2
  end.

End Program.

(** The AUTOINCREMENT counter is at least every rowid in the table, as it is
    in every database that [init_db] and the store operations produce. *)
Definition seq_ok (w : World) : Prop :=
  map_Forall (fun k _ => k <= sqlite_sequence w) (goals w).

#[global] Instance seq_ok_dec w : Decision (seq_ok w).
Proof. unfold seq_ok. apply _. Defined.

(** The value a call returned, if it returned. *)
Definition returned {A} (r : Outcome A * World) : option A :=
  match r.1 with
  | Ret a => Some a
  | Raise _ => None
  end.

(** Goal [id] is out of reach for [owner]: absent from the owner's listing
    and matched by neither the owner's UPDATE nor the owner's DELETE, which
    report no row and leave the world as it was. *)
Definition out_of_reach (owner id : Z) (w : World) : Prop :=
  (exists rows, list_goals owner w = (Ret rows, w) /\
                forall row, row ∈ rows -> row.1.1 <> id) /\
  mark_done owner id w = (Ret 0, w) /\
  delete_goal owner id w = (Ret 0, w).

(** What a store operation may do to a stored goal [g]: keep [text],
    [user_id] and [created_at], and leave [is_done] or set it to 1. *)
Definition same_goal_maybe_done (g g' : Goal) : Prop :=
  text g' = text g /\ user_id g' = user_id g /\ created_at g' = created_at g /\
  (is_done g' = is_done g \/ is_done g' = 1).

(** A freshly created database. *)
Definition empty_world (now : Z) : World := mkWorld ∅ 0 now [] [] [].

(** ** Predicates of the claims *)

(** The remote call failed: the SDK raised an [Exception] (network error,
    timeout, error status), or the response has no choice or no content. *)
Definition malformed (r : Response) : Prop :=
  match choices r with
  | [] => True
  | c :: _ => content c = None
  end.

Definition remote_call_fails (o : RemoteOutcome) : Prop :=
  match o with
  | Fails e => isinstance_Exception e = true
  | Responds r => malformed r
  end.

(** The wording of the system instruction in the specification. *)
Definition spec_instruction : str :=
  PyStr.lit "concisely in the user's language unless asked otherwise".

(** The exchange as the specification describes it: a system instruction
    with that wording, then the prompt as the user turn. *)
Definition exchange_as_specified (prompt : str) : Prop :=
  exists instruction,
    messages (ask_openai_request prompt) = [(system, instruction); (user, prompt)] /\
    PyStr.contains spec_instruction instruction = true.

(** An argument that is missing, empty or all whitespace. *)
Definition blank_argument (c : CommandObject) : Prop :=
  match args c with
  | None => True
  | Some a => Forall (fun ch => PyStr.isspace ch = true) a
  end.

(** An argument that [isdigit] rejects: it is missing, empty, or has a
    character that is no digit of Unicode's table; the minus sign (code
    point 45) is such a character. *)
Definition isdigit_rejects (E : Env) (c : CommandObject) : Prop :=
  match args c with
  | None => True
  | Some a => a = [] \/ exists ch, ch ∈ a /\ (numeric_digit E ch = false \/ ch = 45%N)
  end.

(** A message whose argument the check of its handler rejects, with the
    usage hint of that handler. *)
Inductive rejected_input (E : Env) (message : Message) : Sent -> Prop :=
  | ask_blank c :
      Command E "ask" message = Some c -> blank_argument c ->
      rejected_input E message (mkSent USAGE_ASK Markdown None)
  | addgoal_blank c :
      Command E "addgoal" message = Some c -> blank_argument c ->
      rejected_input E message (mkSent USAGE_ADDGOAL Markdown None)
  | done_not_digits c :
      Command E "done" message = Some c -> isdigit_rejects E c ->
      rejected_input E message (mkSent USAGE_DONE Markdown None)
  | del_not_digits c :
      Command E "del" message = Some c -> isdigit_rejects E c ->
      rejected_input E message (mkSent USAGE_DEL Markdown None).

(** Newest first. *)
Definition newest_first (a b : Z * str * Z) : Prop := b.1.1 < a.1.1.

(** ** A concrete environment and worlds for examples *)

(** [int()] on ASCII digits. *)
Definition ascii_int (s : str) : option Z :=
  foldl (fun acc c =>
           n ← acc;
           if ((48 <=? c) && (c <=? 57))%N then Some (10 * n + Z.of_N (c - 48)) else None)
        (match s with [] => None | _ => Some 0 end) s.

(** ASCII digits only, decimal rendering of the clock for [isoformat], any
    mention accepted, an endpoint that times out, and five clock units
    between two looks at the clock. *)
Definition test_env : Env :=
  mkEnv (fun c => ((48 <=? c) && (c <=? 57))%N) ascii_int PyStr.of_int
        (fun _ => true) (fun _ => Fails APITimeoutError) (fun _ => 5%N).

Definition buy_milk : str := PyStr.lit "Buy milk".

(** Owner 7 sends [/done -5]. *)
Definition done_minus_five : Message :=
  mkMessage (Some 7) (Some (PyStr.lit "/done -5")) None.

(** The world after owner 7 has added a first goal to a new database. *)
Definition world_one_goal : World :=
  (add_goal test_env 7 buy_milk (empty_world 1000)).2.

(** ** Predicates of the further properties *)

(** The database in the world: the table, its counter and the clock. *)
Definition db_part (w : World) : gmap Z Goal * Z * Z :=
  (goals w, sqlite_sequence w, clock w).

(** The owner a store operation acts for. *)
Definition op_owner (op : StoreOp) : Z :=
  match op with
  | createGoal u _ | listGoals u | markDone u _ | deleteGoal u _ => u
  end.

(** An operation done for the sender of [message]; a goal it creates has a
    non-empty text. *)
Definition acts_for (message : Message) (op : StoreOp) : Prop :=
  from_user message = Some (op_owner op) /\
  forall u t, op = createGoal u t -> t <> [].

(** The listing with goal [i] left out. *)
Definition without_id (i : Z) (rows : list (Z * str * Z)) : list (Z * str * Z) :=
  filter (fun row => row.1.1 <> i) rows.

(** The listing with goal [i] shown as done. *)
Definition shown_done (i : Z) (rows : list (Z * str * Z)) : list (Z * str * Z) :=
  (fun row => if decide (row.1.1 = i) then (row.1.1, row.1.2, 1) else row) <$> rows.

(** Strictly digit-only, as the specification has it: at least one
    character, and each one of the characters 0 to 9. *)
Definition strictly_digit_only (a : str) : Prop :=
  a <> [] /\ Forall (fun ch => (48 <= ch /\ ch <= 57)%N) a.

(** Owner 7 sends [/done ²] and [/del ²]. *)
Definition done_superscript_two : Message :=
  mkMessage (Some 7) (Some (PyStr.lit "/done ²")) None.
Definition del_superscript_two : Message :=
  mkMessage (Some 7) (Some (PyStr.lit "/del ²")) None.

(** The commands and their handlers, as the decorators pair them. *)
Definition command_table : list (string * Callback) :=
  [ ("start"%string, cb_start_handler); ("ask"%string, cb_cmd_ask);
    ("addgoal"%string, cb_cmd_addgoal); ("goals"%string, cb_cmd_goals);
    ("done"%string, cb_cmd_done); ("del"%string, cb_cmd_del) ].

(** The message is none of the six commands. *)
Definition no_command (E : Env) (message : Message) : Prop :=
  Forall (fun name => Command E name message = None) (command_table.*1).

(** The labels [handle_buttons] compares the text with. *)
Definition menu_labels : list str :=
  [ PyStr.lit "🧠 Запитати AI"; PyStr.lit "🎯 Мої цілі";
    PyStr.lit "🚀 Новий челендж"; PyStr.lit "📅 План на сьогодні" ].

Definition no_menu_label (message : Message) : Prop :=
  Forall (fun label => msg_text message <> Some label) menu_labels.

Definition DEFAULT_REPLY : Sent :=
  mkSent (PyStr.lit "Вибери дію з меню 👇") None (Some main_menu).

(** The rows of the table are as the handlers write them: the text is not
    empty and [is_done] is 0 or 1. *)
Definition rows_ok (w : World) : Prop :=
  map_Forall (fun _ g => text g <> [] /\ (is_done g = 0 \/ is_done g = 1)) (goals w).

#[global] Instance rows_ok_dec w : Decision (rows_ok w).
Proof. unfold rows_ok. apply _. Defined.

(** Owner 7 sends [/done] and [/del] with the id 2^63, one more than the
    largest integer SQLite stores. *)
Definition done_two_to_the_63 : Message :=
  mkMessage (Some 7) (Some (PyStr.lit "/done 9223372036854775808")) None.
Definition del_two_to_the_63 : Message :=
  mkMessage (Some 7) (Some (PyStr.lit "/del 9223372036854775808")) None.

(** The endpoint fails with exceptions of class [Exception] only. *)
Definition endpoint_raises_exceptions (E : Env) : Prop :=
  forall req e, chat_completions_create E req = Fails e -> isinstance_Exception e = true.

(** A turn does at most one store operation, for the sender. *)
Definition one_turn (E : Env) (message : Message) (h : M unit) : Prop :=
  forall w, exists ops,
    (length ops <= 1)%nat /\ Forall (acts_for message) ops /\
    db_part (h w).2 = db_part (run_ops E ops w).

(** A turn that ends in an exception has changed nothing, and the exception
    is [AttributeError] for a message without sender, [ValueError] or
    [OverflowError]. *)
Definition fails_cleanly (message : Message) (h : M unit) : Prop :=
  forall w e, (h w).1 = Raise e ->
    h w = (Raise e, w) /\
    (e = AttributeError /\ from_user message = None \/ e = ValueError \/
     e = OverflowError).

(** An environment in which [isdigit] also accepts the superscript digits
    (code points 178, 179 and 185), as Unicode has them, while [int()] reads
    decimal digits only. *)
Definition superscript_env : Env :=
  mkEnv (fun c => ((48 <=? c) && (c <=? 57) || (c =? 178) || (c =? 179) || (c =? 185))%N)
        ascii_int PyStr.of_int (fun _ => true)
        (fun _ => Responds (mkResponse [mkChoice (Some (PyStr.lit "  Ok. "))]))
        (fun _ => 5%N).

(** The replies of [cmd_done] and [cmd_del]. *)
Definition DONE_REPLY : Sent := mkSent (PyStr.lit "✅ Готово!") None None.
Definition DELETED_REPLY : Sent := mkSent (PyStr.lit "🗑 Видалено.") None None.
Definition NOT_FOUND_REPLY : Sent := mkSent NOT_FOUND None None.

(** Messages and parsed commands for the examples. *)
Definition addgoal_walk : Message :=
  mkMessage (Some 8) (Some (PyStr.lit "/addgoal Walk the dog")) None.
Definition from_owner_7 : Message := mkMessage (Some 7) (Some (PyStr.lit "/done 1")) None.
Definition no_sender : Message := mkMessage None (Some (PyStr.lit "/goals")) None.
Definition done_one : CommandObject :=
  mkCommandObject 47%N (PyStr.lit "done") None (Some (PyStr.lit "1")).
Definition del_one : CommandObject :=
  mkCommandObject 47%N (PyStr.lit "del") None (Some (PyStr.lit "1")).
Definition done_huge : CommandObject :=
  mkCommandObject 47%N (PyStr.lit "done") None (Some (PyStr.lit "9223372036854775808")).
Definition done_superscript : CommandObject :=
  mkCommandObject 47%N (PyStr.lit "done") None (Some (PyStr.lit "²")).

(** * Properties *)

(** ** The embedding on concrete inputs *)

Example lit_decodes_utf8 :
  PyStr.lit "/ask" = [47; 97; 115; 107]%N /\ PyStr.lit "Ці" = [1062; 1110]%N.
Proof. split; reflexivity. Qed.

Example split1_keeps_trailing_whitespace :
  PyStr.split1 (PyStr.lit "  /done   12  ") = [PyStr.lit "/done"; PyStr.lit "12  "] /\
  PyStr.split1 (PyStr.lit "/ask   ") = [PyStr.lit "/ask"].
Proof. split; reflexivity. Qed.

Example strip_both_ends : PyStr.strip (PyStr.lit "  a b  ") = PyStr.lit "a b".
Proof. reflexivity. Qed.

Example of_int_decimal :
  PyStr.of_int 120 = PyStr.lit "120" /\ PyStr.of_int (-7) = PyStr.lit "-7".
Proof. split; reflexivity. Qed.

Example replace_every_match :
  PyStr.replace (PyStr.lit "/ask") [] (PyStr.lit "/ask a/ask/as") = PyStr.lit " a/as".
Proof. reflexivity. Qed.

Example command_with_mention :
  Command test_env "done" (mkMessage (Some 1) (Some (PyStr.lit "/done@bot  12 ")) None) =
  Some (mkCommandObject 47%N (PyStr.lit "done") (Some (PyStr.lit "bot"))
                        (Some (PyStr.lit "12 "))).
Proof. reflexivity. Qed.

(** The scenario of the specification: add a goal, list it, mark it done,
    list it again, delete it, list again. *)
Example buy_milk_scenario :
  sent_text <$> outbox
    (start_polling test_env registered_before_main
       [ mkMessage (Some 7) (Some (PyStr.lit "/addgoal Buy milk")) None;
         mkMessage (Some 7) (Some (PyStr.lit "/goals")) None;
         mkMessage (Some 7) (Some (PyStr.lit "/done 1")) None;
         mkMessage (Some 7) (Some (PyStr.lit "/goals")) None;
         mkMessage (Some 7) (Some (PyStr.lit "/del 1")) None;
         mkMessage (Some 7) (Some (PyStr.lit "/goals")) None ]
       (empty_world 1000)).2 =
  [ PyStr.lit "✅ Ціль додано (ID: 1)";
    PyStr.lit "⏳ *1*. Buy milk";
    PyStr.lit "✅ Готово!";
    PyStr.lit "✅ *1*. Buy milk";
    PyStr.lit "🗑 Видалено.";
    NO_GOALS ].
Proof. vm_compute. reflexivity. Qed.

(** Another owner gets the same answer as for a goal that does not exist. *)
Example other_owner_not_found :
  sent_text <$> outbox
    (start_polling test_env registered_before_main
       [ mkMessage (Some 8) (Some (PyStr.lit "/done 1")) None;
         mkMessage (Some 8) (Some (PyStr.lit "/del 2")) None ]
       world_one_goal).2 =
  [ NOT_FOUND; NOT_FOUND ].
Proof. vm_compute. reflexivity. Qed.

(** ** The table *)

Section SqlFacts.

Implicit Types t : gmap Z Goal.

Lemma max_rowid_ge t k : is_Some (t !! k) -> k <= Sql.max_rowid t.
Proof.
  unfold Sql.max_rowid. revert k.
  apply (map_fold_weak_ind (fun r m => forall k, is_Some (m !! k) -> k <= r)).
  - intros k [g Hg]. by rewrite lookup_empty in Hg.
  - intros i x m r _ IH k [g Hg].
    destruct (decide (i = k)) as [->|Hne]; [lia|].
    rewrite lookup_insert_ne in Hg by done.
    specialize (IH k (ex_intro _ g Hg)). lia.
Qed.

Lemma next_rowid_above t s k : is_Some (t !! k) -> k < Sql.next_rowid t s.
Proof. intros H%max_rowid_ge. unfold Sql.next_rowid. lia. Qed.

Lemma next_rowid_above_seq t s : s < Sql.next_rowid t s.
Proof. unfold Sql.next_rowid. lia. Qed.

Lemma next_rowid_fresh t s : t !! Sql.next_rowid t s = None.
Proof.
  apply eq_None_not_Some. intros H%(next_rowid_above _ s). lia.
Qed.

(** A WHERE clause on the primary key matches the row under that key or
    nothing. *)
Lemma filter_id_and_owner t i u :
  filter (Sql.id_and_owner i u) t =
  match t !! i with
  | Some g => if decide (user_id g = u) then {[ i := g ]} else ∅
  | None => ∅
  end.
Proof.
  apply map_eq. intros k. apply option_eq. intros g.
  rewrite map_lookup_filter_Some. unfold Sql.id_and_owner. simpl.
  destruct (t !! i) as [g'|] eqn:Hi.
  - case_decide as Hu.
    + rewrite lookup_singleton_Some. split.
      * intros (Hk & -> & _). rewrite Hi in Hk. by inversion Hk.
      * intros [-> ->]. by rewrite Hi.
    + rewrite lookup_empty. split; [|done].
      intros (Hk & -> & Hu'). rewrite Hi in Hk. by inversion Hk; subst.
  - rewrite lookup_empty. split; [|done].
    intros (Hk & -> & _). congruence.
Qed.

Lemma rowcount_id_and_owner t i u :
  Sql.rowcount (Sql.id_and_owner i u) t =
  match t !! i with
  | Some g => if decide (user_id g = u) then 1 else 0
  | None => 0
  end.
Proof.
  unfold Sql.rowcount. rewrite filter_id_and_owner.
  destruct (t !! i) as [g|]; [case_decide|];
    by rewrite ?map_size_singleton, ?map_size_empty.
Qed.

Lemma lookup_update t i u k :
  Sql.update Sql.set_is_done (Sql.id_and_owner i u) t !! k =
  (fun g => if decide (k = i /\ user_id g = u) then Sql.set_is_done g else g) <$> t !! k.
Proof.
  unfold Sql.update. rewrite map_lookup_imap.
  destruct (t !! k) as [g|]; simpl; [|done].
  unfold Sql.id_and_owner; simpl. by repeat case_decide.
Qed.

Lemma lookup_delete_where t i u k :
  Sql.delete (Sql.id_and_owner i u) t !! k =
  match t !! k with
  | Some g => if decide (k = i /\ user_id g = u) then None else Some g
  | None => None
  end.
Proof.
  unfold Sql.delete. rewrite map_lookup_filter.
  destruct (t !! k) as [g|]; simpl; [|done].
  unfold Sql.id_and_owner; simpl.
  destruct (decide (k = i /\ user_id g = u)) as [Hd|Hd].
  - rewrite option_guard_False by (intros Hn; apply Hn, Hd). done.
  - rewrite option_guard_True by done. done.
Qed.

(** An UPDATE or DELETE that matches no row leaves the table as it is. *)
Lemma update_no_match t i u :
  Sql.rowcount (Sql.id_and_owner i u) t = 0 ->
  Sql.update Sql.set_is_done (Sql.id_and_owner i u) t = t.
Proof.
  rewrite rowcount_id_and_owner. intros H.
  apply map_eq. intros k. rewrite lookup_update.
  destruct (t !! k) as [g|] eqn:Hk; simpl; [|done].
  case_decide as Hm; [|done]. destruct Hm as [-> Hu].
  rewrite Hk in H. by rewrite decide_True in H.
Qed.

Lemma delete_no_match t i u :
  Sql.rowcount (Sql.id_and_owner i u) t = 0 ->
  Sql.delete (Sql.id_and_owner i u) t = t.
Proof.
  rewrite rowcount_id_and_owner. intros H.
  apply map_eq. intros k. rewrite lookup_delete_where.
  destruct (t !! k) as [g|] eqn:Hk; simpl; [|done].
  case_decide as Hm; [|done]. destruct Hm as [-> Hu].
  rewrite Hk in H. by rewrite decide_True in H.
Qed.

End SqlFacts.

(** ** SELECT ... ORDER BY id DESC *)

Section SelectFacts.

Context (P : Z * Goal -> Prop) `{!forall kv, Decision (P kv)}.
Implicit Types t : gmap Z Goal.

#[local] Instance id_desc_total : Total Sql.id_desc.
Proof. intros a b. unfold Sql.id_desc. lia. Qed.
#[local] Instance id_desc_trans : Transitive Sql.id_desc.
Proof. intros a b c. unfold Sql.id_desc. lia. Qed.

Lemma elem_of_sorted_rows t kv :
  kv ∈ Sql.sorted_rows P t <-> t !! kv.1 = Some kv.2 /\ P kv.
Proof.
  unfold Sql.sorted_rows. rewrite merge_sort_Permutation.
  rewrite elem_of_map_to_list', map_lookup_filter_Some.
  by destruct kv.
Qed.

Lemma strict_of_NoDup (l : list (Z * Goal)) :
  StronglySorted Sql.id_desc l -> NoDup (l.*1) ->
  StronglySorted Sql.id_strictly_desc l.
Proof.
  induction 1 as [|a l Hl IH Ha]; intros Hnd; [constructor|].
  rewrite fmap_cons in Hnd. apply NoDup_cons in Hnd as [Hnotin Hnd].
  constructor; [by apply IH|].
  rewrite Forall_forall in Ha |- *. intros b Hb.
  specialize (Ha b Hb). unfold Sql.id_desc in Ha. unfold Sql.id_strictly_desc.
  assert (b.1 <> a.1); [|lia].
  intros Heq. apply Hnotin. rewrite <- Heq. by apply list_elem_of_fmap_2.
Qed.

Lemma sorted_rows_strict t : StronglySorted Sql.id_strictly_desc (Sql.sorted_rows P t).
Proof.
  apply strict_of_NoDup.
  - apply StronglySorted_merge_sort; apply _.
  - unfold Sql.sorted_rows. rewrite merge_sort_Permutation.
    apply NoDup_fst_map_to_list.
Qed.

(** A row inserted under a key above every key of the table comes first
    in the listing when the WHERE clause accepts it. *)
Lemma sorted_rows_insert_top t i g :
  (forall k, is_Some (t !! k) -> k < i) -> P (i, g) ->
  Sql.sorted_rows P (<[i := g]> t) = (i, g) :: Sql.sorted_rows P t.
Proof.
  intros Htop HP.
  apply (StronglySorted_unique_strong Sql.id_strictly_desc).
  - intros x1 x2 _ _. unfold Sql.id_strictly_desc. lia.
  - apply sorted_rows_strict.
  - constructor; [apply sorted_rows_strict|].
    rewrite Forall_forall. intros kv [Hkv _]%elem_of_sorted_rows.
    unfold Sql.id_strictly_desc. simpl. apply Htop. by eexists.
  - unfold Sql.sorted_rows. rewrite !merge_sort_Permutation.
    rewrite map_filter_insert_True by done.
    apply map_to_list_insert.
    apply map_lookup_filter_None_2. left.
    apply eq_None_not_Some. intros Hk%Htop. lia.
Qed.

Lemma sorted_rows_insert_other t i g :
  t !! i = None -> ~ P (i, g) ->
  Sql.sorted_rows P (<[i := g]> t) = Sql.sorted_rows P t.
Proof.
  intros Hi HP. unfold Sql.sorted_rows.
  rewrite map_filter_insert_False by done.
  by rewrite delete_id.
Qed.

End SelectFacts.

(** ** Store operations on the world *)

Section StoreFacts.

Context (E : Env).
Implicit Types w : World.

Lemma add_goal_unfold u t w :
  add_goal E u t w =
  let now := clock w + Z.of_N (elapsed E (clock w)) in
  let id := Sql.next_rowid (goals w) (sqlite_sequence w) in
  (Ret id,
   mkWorld (<[id := mkGoal u t 0 (isoformat E now)]> (goals w)) id now
           (outbox w) (requests w) (errlog w)).
Proof. reflexivity. Qed.

Lemma mark_done_result u i w :
  (mark_done u i w).1 =
  Ret (match goals w !! i with
       | Some g => if decide (user_id g = u) then 1 else 0
       | None => 0
       end).
Proof. unfold mark_done. simpl. by rewrite rowcount_id_and_owner. Qed.

Lemma delete_goal_result u i w :
  (delete_goal u i w).1 =
  Ret (match goals w !! i with
       | Some g => if decide (user_id g = u) then 1 else 0
       | None => 0
       end).
Proof. unfold delete_goal. simpl. by rewrite rowcount_id_and_owner. Qed.

Lemma set_goals_same w : set_goals (goals w) w = w.
Proof. by destruct w. Qed.

Lemma mark_done_no_match u i w :
  (forall g, goals w !! i = Some g -> user_id g <> u) ->
  mark_done u i w = (Ret 0, w).
Proof.
  intros H. unfold mark_done.
  assert (Sql.rowcount (Sql.id_and_owner i u) (goals w) = 0) as H0.
  { rewrite rowcount_id_and_owner. destruct (goals w !! i) as [g|]; [|done].
    rewrite decide_False; [done|]. by apply H. }
  by rewrite update_no_match, H0, set_goals_same.
Qed.

Lemma delete_goal_no_match u i w :
  (forall g, goals w !! i = Some g -> user_id g <> u) ->
  delete_goal u i w = (Ret 0, w).
Proof.
  intros H. unfold delete_goal.
  assert (Sql.rowcount (Sql.id_and_owner i u) (goals w) = 0) as H0.
  { rewrite rowcount_id_and_owner. destruct (goals w !! i) as [g|]; [|done].
    rewrite decide_False; [done|]. by apply H. }
  by rewrite delete_no_match, H0, set_goals_same.
Qed.

Lemma list_goals_rows u w row :
  row ∈ Sql.select (Sql.owned_by u) (goals w) <->
  exists g, goals w !! row.1.1 = Some g /\ user_id g = u /\
            row = (row.1.1, text g, is_done g).
Proof.
  unfold Sql.select. rewrite list_elem_of_fmap. split.
  - intros ([k g] & -> & [Hk Hu]%elem_of_sorted_rows). simpl in *.
    exists g. by repeat split.
  - intros (g & Hk & Hu & Hrow). exists (row.1.1, g). split; [done|].
    apply elem_of_sorted_rows. by split.
Qed.

Lemma out_of_reach_intro u i w :
  (forall g, goals w !! i = Some g -> user_id g <> u) ->
  out_of_reach u i w.
Proof.
  intros H. split; [|split].
  - eexists. split; [reflexivity|].
    intros row (g & Hk & Hu & _)%list_goals_rows Hi.
    rewrite Hi in Hk. by apply (H g).
  - by apply mark_done_no_match.
  - by apply delete_goal_no_match.
Qed.

(** One store operation, seen from one key at or below the counter: the
    row stays, is marked done, or is deleted; an absent row stays absent. *)
Lemma run_op_lookup op w k :
  seq_ok w -> k <= sqlite_sequence w ->
  let w' := (run_op E op w).2 in
  seq_ok w' /\ sqlite_sequence w <= sqlite_sequence w' /\
  (goals w' !! k = goals w !! k \/
   (is_Some (goals w !! k) /\ goals w' !! k = None) \/
   (is_Some (goals w !! k) /\ goals w' !! k = Sql.set_is_done <$> goals w !! k)).
Proof.
  intros Hok Hk. destruct op as [u t|u|u i|u i]; simpl.
  - pose proof (next_rowid_above_seq (goals w) (sqlite_sequence w)) as Hnew.
    split; [|split; [lia|left]].
    + intros k' g'. simpl. rewrite lookup_insert_Some.
      intros [[<- _]|[_ Hk']]; [lia|]. specialize (Hok k' g' Hk'). simpl in Hok. lia.
    + apply lookup_insert_ne. lia.
  - split; [done|]. split; [lia|by left].
  - split; [|split; [lia|]].
    + intros k' g'. simpl. rewrite lookup_update.
      destruct (goals w !! k') as [g0|] eqn:Hk'; simpl; [|done].
      intros _. by apply (Hok k' g0).
    + rewrite lookup_update.
      destruct (goals w !! k) as [g|]; simpl; [|by left].
      case_decide; [right; right; eauto|by left].
  - split; [|split; [lia|]].
    + intros k' g'. simpl. rewrite lookup_delete_where.
      destruct (goals w !! k') as [g0|] eqn:Hk'; [|done].
      case_decide; [done|]. intros [= <-]. by apply (Hok k' g0).
    + rewrite lookup_delete_where.
      destruct (goals w !! k) as [g|]; [|by left].
      case_decide; [right; left; eauto|by left].
Qed.

Lemma seq_ok_add_goal u t w : seq_ok (add_goal E u t w).2.
Proof.
  rewrite add_goal_unfold. intros k g. simpl. rewrite lookup_insert_Some.
  intros [[<- _]|[_ Hk]]; [lia|].
  apply Z.lt_le_incl, next_rowid_above. by eexists.
Qed.

Lemma seq_ok_run_ops ops w : seq_ok w -> seq_ok (run_ops E ops w).
Proof.
  revert w. induction ops as [|op ops IH]; intros w Hok; [done|].
  simpl. apply IH.
  destruct (run_op_lookup op w (sqlite_sequence w) Hok) as [H _]; [lia|done].
Qed.

(** Every database grown from an empty table by store operations. *)
Lemma seq_ok_reachable ops now : seq_ok (run_ops E ops (empty_world now)).
Proof. apply seq_ok_run_ops. intros k g. simpl. by rewrite lookup_empty. Qed.

(** A goal followed through a sequence of operations. *)
Lemma run_ops_lookup ops w k g :
  seq_ok w -> goals w !! k = Some g ->
  goals (run_ops E ops w) !! k = None \/
  exists g', goals (run_ops E ops w) !! k = Some g' /\ same_goal_maybe_done g g'.
Proof.
  intros Hok Hg.
  assert (k <= sqlite_sequence w) as Hk by (by apply (Hok k g)).
  assert (goals w !! k = None \/
          exists g', goals w !! k = Some g' /\ same_goal_maybe_done g g') as Hinv.
  { right. exists g. split; [done|]. unfold same_goal_maybe_done. tauto. }
  clear Hg. revert w Hok Hk Hinv.
  induction ops as [|op ops IH]; intros w Hok Hk Hinv; [done|].
  simpl. destruct (run_op_lookup op w k Hok Hk) as (Hok' & Hseq & Hstep).
  apply IH; [done|lia|].
  destruct Hstep as [->|[[_ ->]|[_ ->]]]; [done|by left|].
  destruct Hinv as [->|(g' & -> & Hsame)]; [by left|].
  right. exists (Sql.set_is_done g'). split; [done|].
  unfold same_goal_maybe_done in *. simpl. tauto.
Qed.

(** A deleted key is never assigned again. *)
Lemma run_ops_gone ops w k :
  seq_ok w -> k <= sqlite_sequence w -> goals w !! k = None ->
  goals (run_ops E ops w) !! k = None.
Proof.
  revert w. induction ops as [|op ops IH]; intros w Hok Hk Hnone; [done|].
  simpl. destruct (run_op_lookup op w k Hok Hk) as (Hok' & Hseq & Hstep).
  apply IH; [done|lia|].
  rewrite Hnone in Hstep.
  destruct Hstep as [->|[[[? ?] _]|[[? ?] _]]]; done.
Qed.

End StoreFacts.

Lemma add_goal_lookup_new E u t w :
  goals (add_goal E u t w).2 !! Sql.next_rowid (goals w) (sqlite_sequence w) =
  Some (mkGoal u t 0 (isoformat E (clock w + Z.of_N (elapsed E (clock w))))).
Proof. rewrite add_goal_unfold. simpl. apply lookup_insert_eq. Qed.

Lemma mark_done_lookup u i w k :
  goals (mark_done u i w).2 !! k =
  (fun g => if decide (k = i /\ user_id g = u) then Sql.set_is_done g else g)
    <$> goals w !! k.
Proof. unfold mark_done. simpl. apply lookup_update. Qed.

Lemma mark_done_hit u i w g :
  goals w !! i = Some g -> user_id g = u ->
  goals (mark_done u i w).2 !! i = Some (Sql.set_is_done g).
Proof. intros Hg Hu. rewrite mark_done_lookup, Hg. simpl. by rewrite decide_True. Qed.

(** ** Goal store: the claims *)

(** C4: for every owner and text (non-empty or not), [add_goal] returns the
    newly assigned id, an id no row had before, and the table gains under
    that id a record with the given owner and text, [is_done] 0 and
    [created_at] the rendering of the instant [now] read from the clock
    during the call, which is no earlier than the clock at the start of the
    call. *)
Theorem createGoal_inserts_pending_goal (E : Env) (owner_id : Z) (text : str) (w : World) :
  exists id now,
    returned (add_goal E owner_id text w) = Some id /\
    goals w !! id = None /\
    goals (add_goal E owner_id text w).2 =
      <[id := mkGoal owner_id text 0 (isoformat E now)]> (goals w) /\
    goals (add_goal E owner_id text w).2 !! id =
      Some (mkGoal owner_id text 0 (isoformat E now)) /\
    clock w <= now /\
    clock (add_goal E owner_id text w).2 = now.
Proof.
  exists (Sql.next_rowid (goals w) (sqlite_sequence w)),
         (clock w + Z.of_N (elapsed E (clock w))).
  rewrite add_goal_unfold. simpl. repeat split.
  - apply next_rowid_fresh.
  - apply lookup_insert_eq.
  - lia.
Qed.

(** C5: for an existing goal of the owner, [mark_done] returns 1 the first
    time and 1 the second time, [is_done] is 1 after either call, and the
    second call changes nothing. *)
Theorem markDone_idempotent (owner id : Z) (g : Goal) (w : World) :
  goals w !! id = Some g -> user_id g = owner ->
  let first := mark_done owner id w in
  let second := mark_done owner id first.2 in
  returned first = Some 1 /\ returned second = Some 1 /\
  is_done <$> goals first.2 !! id = Some 1 /\
  is_done <$> goals second.2 !! id = Some 1 /\
  second.2 = first.2.
Proof.
  intros Hg Hu first second.
  pose proof (mark_done_hit owner id w g Hg Hu) as H1. fold first in H1.
  assert (goals second.2 !! id = Some (Sql.set_is_done g)) as H2.
  { exact (mark_done_hit owner id first.2 (Sql.set_is_done g) H1 Hu). }
  split; [|split; [|split; [|split]]].
  - unfold returned, first. rewrite mark_done_result, Hg. by rewrite decide_True.
  - unfold returned, second. rewrite mark_done_result, H1. simpl.
    by rewrite decide_True.
  - by rewrite H1.
  - by rewrite H2.
  - unfold second. unfold mark_done at 1. cbn [snd].
    assert (Sql.update Sql.set_is_done (Sql.id_and_owner id owner) (goals first.2)
            = goals first.2) as ->; [|apply set_goals_same].
    apply map_eq. intros k. rewrite lookup_update.
    unfold first. rewrite mark_done_lookup.
    destruct (goals w !! k) as [g0|]; simpl; [|done].
    repeat case_decide; try done; simpl in *; tauto.
Qed.

Lemma markDone_idempotent_witness :
  goals world_one_goal !! 1 = Some (mkGoal 7 buy_milk 0 (PyStr.of_int 1005)) /\
  returned (mark_done 7 1 world_one_goal) = Some 1 /\
  returned (mark_done 7 1 (mark_done 7 1 world_one_goal).2) = Some 1.
Proof.
  split; [reflexivity|].
  pose proof (markDone_idempotent 7 1 (mkGoal 7 buy_milk 0 (PyStr.of_int 1005))
                world_one_goal eq_refl eq_refl) as H.
  simpl in H. tauto.
Defined.

(** For an id that fits in 64 bits, [mark_done] and [delete_goal] as the
    handlers call them return 0 or 1, and 1 exactly when the table holds a
    goal with that id and that owner; once [delete_goal] has returned 1 for
    an id, both return 0 for that id, whoever asks and whatever store
    operations came in between. *)
Lemma count_is_match_within_range (E : Env) (owner id : Z) (w : World) :
  sqlite_int id = true ->
  (exists n, returned (sqlite_bind id (mark_done owner id) w) = Some n /\
             (n = 0 \/ n = 1) /\
             (n = 1 <-> exists g, goals w !! id = Some g /\ user_id g = owner)) /\
  (exists n, returned (sqlite_bind id (delete_goal owner id) w) = Some n /\
             (n = 0 \/ n = 1) /\
             (n = 1 <-> exists g, goals w !! id = Some g /\ user_id g = owner)) /\
  (seq_ok w -> returned (sqlite_bind id (delete_goal owner id) w) = Some 1 ->
   forall (ops : list StoreOp) (anyone : Z),
     let later := run_ops E ops (sqlite_bind id (delete_goal owner id) w).2 in
     returned (sqlite_bind id (mark_done anyone id) later) = Some 0 /\
     returned (sqlite_bind id (delete_goal anyone id) later) = Some 0).
Proof.
  intros Hid. unfold sqlite_bind. rewrite Hid. cbv zeta. cbn beta iota.
  assert (forall n,
    n = match goals w !! id with
        | Some g => if decide (user_id g = owner) then 1 else 0
        | None => 0
        end ->
    (n = 0 \/ n = 1) /\
    (n = 1 <-> exists g, goals w !! id = Some g /\ user_id g = owner)) as Hcount.
  { intros n ->. destruct (goals w !! id) as [g|].
    - case_decide; (split; [lia|]); split; try done; eauto.
      intros (g' & [= <-] & ?). done.
    - split; [lia|]. split; [done|]. by intros (g' & ? & _). }
  split; [|split].
  - eexists. unfold returned. rewrite mark_done_result. split; [done|]. by apply Hcount.
  - eexists. unfold returned. rewrite delete_goal_result. split; [done|]. by apply Hcount.
  - intros Hok Hdel ops anyone.
    set (later := run_ops E ops (delete_goal owner id w).2).
    unfold returned in Hdel. rewrite delete_goal_result in Hdel.
    destruct (goals w !! id) as [g|] eqn:Hg; [|done].
    case_decide as Hu; [|done].
    assert (id <= sqlite_sequence w) as Hle by (by apply (Hok id g)).
    destruct (run_op_lookup E (deleteGoal owner id) w id Hok Hle) as (Hok' & Hseq & _).
    change (run_op E (deleteGoal owner id) w).2 with (delete_goal owner id w).2 in *.
    assert (goals later !! id = None) as Hgone.
    { apply run_ops_gone; [done|lia|].
      unfold delete_goal. simpl. rewrite lookup_delete_where, Hg.
      by rewrite decide_True. }
    unfold returned. by rewrite mark_done_result, delete_goal_result, Hgone.
Qed.

(** C10, where the code departs from it: the id 2^63 does not fit in 64
    bits, and no goal has it, so [mark_done] and [delete_goal] owe a 0; but
    the driver raises [OverflowError] when it binds the id, the call returns
    nothing, and the turn of [/done 9223372036854775808] or
    [/del 9223372036854775808] ends in that exception with no reply sent
    and nothing changed. *)
Theorem huge_id_raises_OverflowError :
  sqlite_int (2 ^ 63) = false /\
  goals world_one_goal !! (2 ^ 63) = None /\
  returned (sqlite_bind (2 ^ 63) (mark_done 7 (2 ^ 63)) world_one_goal) = None /\
  returned (sqlite_bind (2 ^ 63) (delete_goal 7 (2 ^ 63)) world_one_goal) = None /\
  feed_update test_env registered_before_main done_two_to_the_63 world_one_goal =
    (Raise OverflowError, world_one_goal) /\
  feed_update test_env registered_before_main del_two_to_the_63 world_one_goal =
    (Raise OverflowError, world_one_goal).
Proof. repeat split; vm_compute; reflexivity. Qed.

(** C1: a goal whose owner is A is out of reach for every other owner B:
    [list_goals] of B does not return it, and [mark_done] and [delete_goal]
    of B on its id return 0 and change nothing.  This holds for any stored
    goal of A, and for a goal A has created it holds after any sequence of
    store operations. *)
Theorem ownership_isolation (E : Env) (A B : Z) :
  A <> B ->
  (forall (w : World) (id : Z) (g : Goal),
     goals w !! id = Some g -> user_id g = A -> out_of_reach B id w) /\
  (forall (text : str) (w : World) (ops : list StoreOp),
     exists id, returned (add_goal E A text w) = Some id /\
                out_of_reach B id (run_ops E ops (add_goal E A text w).2)).
Proof.
  intros HAB. split.
  - intros w id g Hg Hu. apply out_of_reach_intro.
    intros g' Hg'. rewrite Hg in Hg'. inversion Hg'; subst. done.
  - intros text w ops.
    exists (Sql.next_rowid (goals w) (sqlite_sequence w)). split; [done|].
    pose proof (add_goal_lookup_new E A text w) as Hnew.
    apply out_of_reach_intro. intros g' Hg'.
    destruct (run_ops_lookup E ops _ _ _ (seq_ok_add_goal E A text w) Hnew)
      as [Hnone|(g'' & Hg'' & _ & Hu & _)].
    + by rewrite Hnone in Hg'.
    + rewrite Hg'' in Hg'. inversion Hg'; subst. by rewrite Hu.
Qed.

Lemma ownership_isolation_witness :
  7 <> 8 /\
  out_of_reach 8 1 world_one_goal /\
  exists id, returned (add_goal test_env 7 buy_milk (empty_world 1000)) = Some id /\
             out_of_reach 8 id
               (run_ops test_env [deleteGoal 7 1; createGoal 8 buy_milk]
                        (add_goal test_env 7 buy_milk (empty_world 1000)).2).
Proof.
  assert (7 <> 8) as Hne by lia.
  destruct (ownership_isolation test_env 7 8 Hne) as [Hstate Htrace].
  split; [exact Hne|]. split.
  - apply (Hstate world_one_goal 1 (mkGoal 7 buy_milk 0 (PyStr.of_int 1005)));
      reflexivity.
  - apply Htrace.
Defined.

(** C2: a stored goal followed through any sequence of store operations is
    either deleted or still has its [text], [user_id] and [created_at];
    its [is_done] is what it was or 1, and once 1 it stays 1. *)
Theorem immutability_frame (E : Env) (w : World) (id : Z) (g : Goal)
    (ops : list StoreOp) :
  seq_ok w -> goals w !! id = Some g ->
  goals (run_ops E ops w) !! id = None \/
  exists g', goals (run_ops E ops w) !! id = Some g' /\
             text g' = text g /\ user_id g' = user_id g /\
             created_at g' = created_at g /\
             (is_done g' = is_done g \/ is_done g' = 1) /\
             (is_done g = 1 -> is_done g' = 1).
Proof.
  intros Hok Hg.
  destruct (run_ops_lookup E ops w id g Hok Hg)
    as [Hnone|(g' & Hg' & Ht & Hu & Hc & Hd)].
  - by left.
  - right. exists g'. repeat split; try done.
    intros H1. destruct Hd as [Hd|Hd]; congruence.
Qed.

Lemma immutability_frame_witness :
  seq_ok world_one_goal /\
  goals world_one_goal !! 1 = Some (mkGoal 7 buy_milk 0 (PyStr.of_int 1005)) /\
  (goals (run_ops test_env [markDone 7 1; createGoal 8 buy_milk; markDone 8 1]
                  world_one_goal) !! 1 = None \/
   exists g', goals (run_ops test_env [markDone 7 1; createGoal 8 buy_milk; markDone 8 1]
                             world_one_goal) !! 1 = Some g' /\
              text g' = buy_milk /\ user_id g' = 7 /\
              created_at g' = PyStr.of_int 1005 /\
              (is_done g' = 0 \/ is_done g' = 1) /\
              (0 = 1 -> is_done g' = 1)).
Proof.
  assert (seq_ok world_one_goal) as Hok by compute_done.
  split; [exact Hok|]. split; [reflexivity|].
  exact (immutability_frame test_env world_one_goal 1
           (mkGoal 7 buy_milk 0 (PyStr.of_int 1005))
           [markDone 7 1; createGoal 8 buy_milk; markDone 8 1] Hok eq_refl).
Defined.

Lemma select_after_add E u t w :
  Sql.select (Sql.owned_by u) (goals (add_goal E u t w).2) =
  (Sql.next_rowid (goals w) (sqlite_sequence w), t, 0)
    :: Sql.select (Sql.owned_by u) (goals w).
Proof.
  rewrite add_goal_unfold. simpl. unfold Sql.select.
  rewrite sorted_rows_insert_top; [done| |done].
  intros k Hk. by apply next_rowid_above.
Qed.

Lemma select_strictly_sorted u (t : gmap Z Goal) :
  StronglySorted newest_first (Sql.select (Sql.owned_by u) t).
Proof.
  unfold Sql.select.
  apply (StronglySorted_fmap _ Sql.id_strictly_desc); [|apply sorted_rows_strict].
  by intros [??] [??].
Qed.

(** C3: [list_goals] returns, without error and without changing anything,
    exactly the goals of the owner as (id, text, is_done), by strictly
    descending id; the empty list when the owner has none; and after the
    owner has created three goals in a row, those three in reverse order of
    creation in front of what was listed before. *)
Theorem listGoals_newest_first (E : Env) (owner : Z) (w : World) :
  exists rows,
    list_goals owner w = (Ret rows, w) /\
    (forall row, row ∈ rows <->
       exists g, goals w !! row.1.1 = Some g /\ user_id g = owner /\
                 row = (row.1.1, text g, is_done g)) /\
    StronglySorted newest_first rows /\
    ((forall k g, goals w !! k = Some g -> user_id g <> owner) -> rows = []) /\
    (forall t1 t2 t3,
       let r1 := add_goal E owner t1 w in
       let r2 := add_goal E owner t2 r1.2 in
       let r3 := add_goal E owner t3 r2.2 in
       exists g1 g2 g3,
         returned r1 = Some g1 /\ returned r2 = Some g2 /\ returned r3 = Some g3 /\
         list_goals owner r3.2 =
           (Ret ((g3, t3, 0) :: (g2, t2, 0) :: (g1, t1, 0) :: rows), r3.2)).
Proof.
  exists (Sql.select (Sql.owned_by owner) (goals w)).
  split; [done|]. split; [apply list_goals_rows|].
  split; [apply select_strictly_sorted|]. split.
  - intros Hnone. apply elem_of_nil_inv. intros row.
    rewrite list_goals_rows. intros (g & Hg & Hu & _). by apply (Hnone _ _ Hg).
  - intros t1 t2 t3 r1 r2 r3. do 3 eexists.
    split; [reflexivity|]. split; [reflexivity|]. split; [reflexivity|].
    unfold list_goals, r3, r2, r1. by rewrite !select_after_add.
Qed.

(** ** Completion client *)

Section ClientFacts.

Context (E : Env).

Lemma ask_openai_failure prompt w :
  remote_call_fails (chat_completions_create E (ask_openai_request prompt)) ->
  exists e, ask_openai E prompt w =
            (Ret APOLOGY, push_errlog e (push_request (ask_openai_request prompt) w)).
Proof.
  unfold remote_call_fails, ask_openai, try_except, mbind, M_bind, create.
  destruct (chat_completions_create E (ask_openai_request prompt)) as [r|e]; simpl.
  - unfold malformed, first_choice.
    destruct (choices r) as [|c cs]; simpl.
    + intros _. by exists IndexError.
    + intros ->. by exists AttributeError.
  - intros ->. by exists e.
Qed.

Lemma ask_openai_requests prompt w :
  requests (ask_openai E prompt w).2 = requests w ++ [ask_openai_request prompt].
Proof.
  unfold ask_openai, try_except, mbind, M_bind, create.
  destruct (chat_completions_create E (ask_openai_request prompt)) as [r|e]; simpl.
  - unfold first_choice. destruct (choices r) as [|c cs]; simpl; [done|].
    by destruct (content c).
  - by destruct (isinstance_Exception e).
Qed.

End ClientFacts.

(** C7: when the remote call fails, [ask_openai] does not raise: it logs
    the failure and returns the fixed apology, and a [/ask] turn with a
    non-empty question ends normally with the thinking notice followed by
    the apology as its replies. *)
Theorem completion_failure_yields_apology (E : Env) (prompt : str) (w : World) :
  remote_call_fails (chat_completions_create E (ask_openai_request prompt)) ->
  (exists e, ask_openai E prompt w =
             (Ret APOLOGY, push_errlog e (push_request (ask_openai_request prompt) w))) /\
  (forall message command,
     PyStr.strip (default [] (args command)) = prompt -> prompt <> [] ->
     exists w', cmd_ask E message command w = (Ret tt, w') /\
                outbox w' = outbox w ++ [mkSent THINKING None None; mkSent APOLOGY None None] /\
                goals w' = goals w).
Proof.
  intros Hfail. split; [by apply ask_openai_failure|].
  intros message command Hq Hne.
  unfold cmd_ask. rewrite Hq. destruct prompt as [|ch prompt]; [done|].
  unfold mbind, M_bind, answer. cbn [fst snd].
  destruct (ask_openai_failure E (ch :: prompt) (push_outbox (mkSent THINKING None None) w) Hfail)
    as [e ->].
  eexists. split; [reflexivity|]. simpl. by rewrite <- app_assoc.
Qed.

Lemma completion_failure_yields_apology_witness :
  remote_call_fails (chat_completions_create test_env (ask_openai_request buy_milk)) /\
  returned (ask_openai test_env buy_milk (empty_world 0)) = Some APOLOGY.
Proof.
  split; [reflexivity|].
  destruct (proj1 (completion_failure_yields_apology test_env buy_milk (empty_world 0) eq_refl))
    as [e He].
  by rewrite He.
Defined.

(** C8, as the specification words it, fails: the system instruction of the
    request does not speak of the user's language. *)
Lemma exchange_as_specified_fails : ~ exchange_as_specified (PyStr.lit "Hello").
Proof.
  intros (instruction & Hm & Hc). simpl in Hm.
  inversion Hm; subst. vm_compute in Hc. discriminate.
Qed.

(** C8, amended: the request is exactly a system message with the fixed
    instruction (the planning-assistant persona and the sentence "Answer
    concisely in Ukrainian unless asked otherwise.") followed by the prompt
    as the user message, with [max_tokens] 600 and temperature 0.3, below
    the API's default of 1; and [ask_openai] sends this one request. *)
Theorem completion_request_shape (E : Env) (prompt : str) (w : World) :
  messages (ask_openai_request prompt) = [(system, SYSTEM_PROMPT); (user, prompt)] /\
  length (messages (ask_openai_request prompt)) = 2%nat /\
  PyStr.contains (PyStr.lit "a helpful planning assistant") SYSTEM_PROMPT = true /\
  PyStr.contains (PyStr.lit "Answer concisely in Ukrainian unless asked otherwise.")
                 SYSTEM_PROMPT = true /\
  max_tokens (ask_openai_request prompt) = Some 600 /\
  temperature (ask_openai_request prompt) = Some (3 # 10)%Q /\
  (3 # 10 < 1)%Q /\
  requests (ask_openai E prompt w).2 = requests w ++ [ask_openai_request prompt].
Proof.
  repeat split; try reflexivity. apply ask_openai_requests.
Qed.

(** ** Dispatch *)

Section DispatchFacts.

Context (E : Env).

(** Handlers registered behind one that already takes the message are
    never reached. *)
Lemma resolve_app dp extra message r :
  resolve E dp message = Some r -> resolve E (dp ++ extra) message = Some r.
Proof.
  induction dp as [|[f cb] dp IH]; simpl; [done|].
  destruct (check E f message); [done|apply IH].
Qed.

Lemma resolve_callback dp message cb kw :
  resolve E dp message = Some (cb, kw) -> cb ∈ dp.*2.
Proof.
  induction dp as [|[f cb'] dp IH]; simpl; [done|].
  destruct (check E f message).
  - intros [= <- <-]. apply list_elem_of_here.
  - intros H. apply list_elem_of_further. by apply IH.
Qed.

(** The filter-free handler takes every message the commands leave. *)
Lemma resolve_registered_total message :
  is_Some (resolve E registered_before_main message).
Proof.
  unfold registered_before_main. cbn [resolve].
  repeat (match goal with
          | |- context [check E (FCommand ?n) message] =>
              destruct (check E (FCommand n) message); [by eexists|]
          end).
  by eexists.
Qed.

Lemma Command_name name message c :
  Command E name message = Some c -> command c = PyStr.lit name.
Proof.
  unfold Command.
  destruct (text_or_caption message) as [[|ch t]|]; [done| |done].
  destruct (extract_command (ch :: t)) as [c'|]; [|done].
  destruct (validate_prefix c' && validate_mention E c'); simpl; [|done].
  case_bool_decide; [|done]. by intros [= <-].
Qed.

Lemma Command_other name name' message c :
  Command E name message = Some c -> PyStr.lit name <> PyStr.lit name' ->
  Command E name' message = None.
Proof.
  unfold Command.
  destruct (text_or_caption message) as [[|ch t]|]; [done| |done].
  destruct (extract_command (ch :: t)) as [c'|]; [|done].
  destruct (validate_prefix c' && validate_mention E c'); simpl; [|done].
  case_bool_decide as Hn; [|done]. intros [= <-] Hne.
  rewrite bool_decide_false; [done|]. congruence.
Qed.

Lemma strip_blank (a : str) :
  Forall (fun ch => PyStr.isspace ch = true) a -> PyStr.strip a = [].
Proof.
  intros Ha. unfold PyStr.strip.
  assert (PyStr.lstrip a = []) as ->; [|done].
  induction Ha as [|ch a Hch _ IH]; simpl; [done|]. by rewrite Hch.
Qed.

Lemma blank_argument_strip c :
  blank_argument c -> PyStr.strip (default [] (args c)) = [].
Proof.
  unfold blank_argument. destruct (args c) as [a|]; simpl; [apply strip_blank|done].
Qed.

Lemma isdigit_rejects_bad c :
  ascii_digits E -> isdigit_rejects E c -> bad_id_argument E c = true.
Proof.
  intros Hascii. unfold isdigit_rejects, bad_id_argument.
  destruct (args c) as [a|]; [|done].
  intros [->|(ch & Hin & Hch)]; [done|].
  apply negb_true_iff. unfold isdigit. destruct a as [|c0 a]; [done|].
  apply not_true_iff_false. rewrite forallb_forall. intros Hall.
  specialize (Hall ch (proj1 (list_elem_of_In _ _) Hin)).
  destruct Hch as [Hch| ->]; [congruence|].
  rewrite Hascii in Hall by done. done.
Qed.

End DispatchFacts.

(** C9: the handler of the trailing block is never chosen.  With the
    trailing registration appended, every message resolves to the same
    handler as without it, which is not [ask_ai]; so handling one update,
    polling a sequence of updates, and the module as a whole (where the
    trailing block runs only after [main] has returned) behave as they do
    with the block removed. *)
Theorem trailing_ask_handler_unreachable (E : Env) :
  (forall message,
     resolve E (registered_before_main ++ [trailing_registration]) message =
     resolve E registered_before_main message /\
     exists cb kw, resolve E (registered_before_main ++ [trailing_registration]) message
                   = Some (cb, kw) /\ cb <> cb_ask_ai) /\
  (forall message w,
     feed_update E (registered_before_main ++ [trailing_registration]) message w =
     feed_update E registered_before_main message w) /\
  (forall updates w,
     main E (registered_before_main ++ [trailing_registration]) updates w =
     main E registered_before_main updates w) /\
  (forall is_main updates w,
     observable (bot_py E is_main updates w) =
     observable (bot_py_without_trailing_block E is_main updates w)).
Proof.
  assert (forall message,
            resolve E (registered_before_main ++ [trailing_registration]) message =
            resolve E registered_before_main message) as Hres.
  { intros message. destruct (resolve_registered_total E message) as [r Hr].
    rewrite Hr. by apply resolve_app. }
  assert (forall message w,
            feed_update E (registered_before_main ++ [trailing_registration]) message w =
            feed_update E registered_before_main message w) as Hfeed.
  { intros message w. unfold feed_update. by rewrite Hres. }
  split; [|split; [done|split]].
  - intros message. split; [done|]. rewrite Hres.
    destruct (resolve_registered_total E message) as [[cb kw] Hr].
    exists cb, kw. split; [done|]. intros ->.
    apply resolve_callback in Hr. vm_compute in Hr.
    repeat (apply elem_of_cons in Hr as [Hr|Hr]; [discriminate|]).
    by apply elem_of_nil in Hr.
  - intros updates w. unfold main, mbind, M_bind. simpl.
    revert w. induction updates as [|message updates IH]; intros w; [done|].
    simpl. unfold mbind, M_bind, try_except. rewrite Hfeed.
    destruct (feed_update E registered_before_main message w) as [[[]|e] w']; [apply IH|].
    destruct (isinstance_Exception e); [|done]. simpl. apply IH.
  - intros is_main updates w.
    unfold bot_py, bot_py_without_trailing_block, observable, mbind, M_bind.
    destruct is_main; simpl; [|done].
    by destruct (main E registered_before_main updates w) as [[[]|e] w'].
Qed.

(** What the handlers do with an argument their own check rejects: a
    [/ask] or [/addgoal] whose argument is missing, empty or all whitespace,
    and a [/done] or [/del] whose argument [isdigit] rejects, is answered
    with the usage hint of its command and nothing else happens: one
    message is sent, no completion request is issued and the table is
    untouched. *)
Lemma rejected_argument_gets_usage_hint (E : Env) (message : Message) (hint : Sent)
    (w : World) :
  ascii_digits E -> rejected_input E message hint ->
  feed_update E registered_before_main message w = (Ret tt, push_outbox hint w) /\
  outbox (feed_update E registered_before_main message w).2 = outbox w ++ [hint] /\
  requests (feed_update E registered_before_main message w).2 = requests w /\
  goals (feed_update E registered_before_main message w).2 = goals w.
Proof.
  intros Hascii Herr.
  assert (feed_update E registered_before_main message w = (Ret tt, push_outbox hint w))
    as ->; [|done].
  unfold feed_update, registered_before_main. cbn [resolve check].
  destruct Herr as [c Hc Hblank|c Hc Hblank|c Hc Hbad|c Hc Hbad].
  - rewrite (Command_other E "ask" "start" message c Hc) by (by vm_compute).
    rewrite Hc. simpl. unfold cmd_ask.
    by rewrite (blank_argument_strip c Hblank).
  - rewrite (Command_other E "addgoal" "start" message c Hc) by (by vm_compute).
    rewrite (Command_other E "addgoal" "ask" message c Hc) by (by vm_compute).
    rewrite Hc. simpl. unfold cmd_addgoal.
    by rewrite (blank_argument_strip c Hblank).
  - rewrite (Command_other E "done" "start" message c Hc) by (by vm_compute).
    rewrite (Command_other E "done" "ask" message c Hc) by (by vm_compute).
    rewrite (Command_other E "done" "addgoal" message c Hc) by (by vm_compute).
    rewrite (Command_other E "done" "goals" message c Hc) by (by vm_compute).
    rewrite Hc. simpl. unfold cmd_done.
    by rewrite (isdigit_rejects_bad E c Hascii Hbad).
  - rewrite (Command_other E "del" "start" message c Hc) by (by vm_compute).
    rewrite (Command_other E "del" "ask" message c Hc) by (by vm_compute).
    rewrite (Command_other E "del" "addgoal" message c Hc) by (by vm_compute).
    rewrite (Command_other E "del" "goals" message c Hc) by (by vm_compute).
    rewrite (Command_other E "del" "done" message c Hc) by (by vm_compute).
    rewrite Hc. simpl. unfold cmd_del.
    by rewrite (isdigit_rejects_bad E c Hascii Hbad).
Qed.

(** C6, where the code departs from it: the argument of [/done ²] is not
    strictly digit-only (the superscript two is none of the characters 0 to
    9), yet [isdigit] accepts it; [int()] then raises [ValueError], so the
    turn ends in that exception with no usage hint sent, as does the turn
    of [/del ²]. *)
Theorem superscript_id_gets_no_usage_hint :
  Command superscript_env "done" done_superscript_two = Some done_superscript /\
  args done_superscript = Some (PyStr.lit "²") /\
  ~ strictly_digit_only (PyStr.lit "²") /\
  feed_update superscript_env registered_before_main done_superscript_two world_one_goal =
    (Raise ValueError, world_one_goal) /\
  feed_update superscript_env registered_before_main del_superscript_two world_one_goal =
    (Raise ValueError, world_one_goal) /\
  outbox (feed_update superscript_env registered_before_main done_superscript_two
            world_one_goal).2 = outbox world_one_goal.
Proof.
  split; [reflexivity|]. split; [reflexivity|]. split.
  - intros [_ Hall]. vm_compute in Hall. inversion Hall as [|ch l [Hlo Hhi] _]; subst.
    vm_compute in Hhi. by apply Hhi.
  - repeat split; vm_compute; reflexivity.
Qed.

(** * Further properties *)

(** ** Store operations among themselves *)

Section StoreComposition.

Context (E : Env).
Implicit Types w : World.

Lemma strict_sorted_NoDup (l : list (Z * Goal)) :
  StronglySorted Sql.id_strictly_desc l -> NoDup l.
Proof.
  induction 1 as [|a l Hl IH Ha]; constructor; [|done].
  intros Hin. rewrite Forall_forall in Ha. specialize (Ha a Hin).
  unfold Sql.id_strictly_desc in Ha. lia.
Qed.

(** Two listings by strictly descending key with the same rows are equal. *)
Lemma strict_sorted_ext (l1 l2 : list (Z * Goal)) :
  StronglySorted Sql.id_strictly_desc l1 ->
  StronglySorted Sql.id_strictly_desc l2 ->
  (forall kv, kv ∈ l1 <-> kv ∈ l2) -> l1 = l2.
Proof.
  intros H1 H2 Hext.
  apply (StronglySorted_unique_strong Sql.id_strictly_desc); [|done|done|].
  - intros x1 x2 _ _. unfold Sql.id_strictly_desc. lia.
  - apply NoDup_Permutation; auto using strict_sorted_NoDup.
Qed.

Lemma strict_sorted_filter (Q : Z * Goal -> Prop) `{!forall kv, Decision (Q kv)}
    (l : list (Z * Goal)) :
  StronglySorted Sql.id_strictly_desc l ->
  StronglySorted Sql.id_strictly_desc (filter Q l).
Proof.
  induction 1 as [|a l Hl IH Ha]; [constructor|].
  rewrite filter_cons. case_decide; [|done].
  constructor; [done|].
  rewrite Forall_forall in Ha |- *. intros b [_ Hb]%list_elem_of_filter. auto.
Qed.

Lemma sorted_rows_ext (P : Z * Goal -> Prop) `{!forall kv, Decision (P kv)}
    (t1 t2 : gmap Z Goal) :
  filter P t1 = filter P t2 -> Sql.sorted_rows P t1 = Sql.sorted_rows P t2.
Proof. unfold Sql.sorted_rows. by intros ->. Qed.

(** An operation for another owner leaves the rows of [A] as they are. *)
Lemma filter_owned_foreign_op A op w :
  op_owner op <> A ->
  filter (Sql.owned_by A) (goals (run_op E op w).2) = filter (Sql.owned_by A) (goals w).
Proof.
  intros Hne. destruct op as [u t|u|u i|u i]; simpl in *.
  - apply map_filter_insert_not'.
    + unfold Sql.owned_by. simpl. done.
    + intros y Hy. by rewrite next_rowid_fresh in Hy.
  - done.
  - apply map_filter_strong_ext_1. intros k x. rewrite lookup_update.
    unfold Sql.owned_by. simpl.
    destruct (goals w !! k) as [g|]; simpl; [|done].
    case_decide as Hm; [|done]. destruct Hm as [-> Hu].
    split; intros [HA [= <-]]; simpl in *; congruence.
  - apply map_filter_strong_ext_1. intros k x. rewrite lookup_delete_where.
    unfold Sql.owned_by. simpl.
    destruct (goals w !! k) as [g|]; [|done].
    case_decide as Hm; [|done]. destruct Hm as [-> Hu].
    split; [by intros [_ ?]|]. intros [HA [= <-]]. congruence.
Qed.

Lemma select_foreign_ops A ops w :
  Forall (fun op => op_owner op <> A) ops ->
  Sql.select (Sql.owned_by A) (goals (run_ops E ops w)) =
  Sql.select (Sql.owned_by A) (goals w).
Proof.
  intros Hops. revert w. induction Hops as [|op ops Hop _ IH]; intros w; [done|].
  simpl. rewrite IH. unfold Sql.select. f_equal.
  apply sorted_rows_ext. by apply filter_owned_foreign_op.
Qed.

(** An operation for another owner leaves a stored goal as it is. *)
Lemma lookup_foreign_op op w k g :
  goals w !! k = Some g -> op_owner op <> user_id g ->
  goals (run_op E op w).2 !! k = Some g.
Proof.
  intros Hg Hne. destruct op as [u t|u|u i|u i]; simpl in *.
  - rewrite lookup_insert_ne; [done|].
    intros <-. by rewrite next_rowid_fresh in Hg.
  - done.
  - rewrite lookup_update, Hg. simpl. case_decide as Hm; [|done].
    destruct Hm as [_ Hu]. congruence.
  - rewrite lookup_delete_where, Hg. case_decide as Hm; [|done].
    destruct Hm as [_ Hu]. congruence.
Qed.

Lemma lookup_foreign_ops ops w k g :
  goals w !! k = Some g -> Forall (fun op => op_owner op <> user_id g) ops ->
  goals (run_ops E ops w) !! k = Some g.
Proof.
  intros Hg Hops. revert w Hg.
  induction Hops as [|op ops Hop _ IH]; intros w Hg; [done|].
  simpl. apply IH. by apply lookup_foreign_op.
Qed.

Lemma sequence_mono_ops ops w :
  seq_ok w -> sqlite_sequence w <= sqlite_sequence (run_ops E ops w).
Proof.
  revert w. induction ops as [|op ops IH]; intros w Hok; [simpl; lia|].
  simpl.
  destruct (run_op_lookup E op w (sqlite_sequence w) Hok) as (Hok' & Hseq & _); [lia|].
  specialize (IH _ Hok'). lia.
Qed.

Lemma sorted_rows_delete u i (t : gmap Z Goal) :
  Sql.sorted_rows (Sql.owned_by u) (Sql.delete (Sql.id_and_owner i u) t) =
  filter (fun kv => kv.1 <> i) (Sql.sorted_rows (Sql.owned_by u) t).
Proof.
  apply strict_sorted_ext.
  - apply sorted_rows_strict.
  - apply strict_sorted_filter, sorted_rows_strict.
  - intros [k g]. rewrite list_elem_of_filter, !elem_of_sorted_rows.
    rewrite lookup_delete_where. unfold Sql.owned_by. simpl.
    destruct (t !! k) as [g0|]; [|split; [by intros [? _]|by intros (_ & ? & _)]].
    case_decide as Hm; [|split].
    + destruct Hm as [-> Hu]. split; [by intros [? _]|]. by intros [? _].
    + intros [[= <-] Hu]. split; [|done]. intros ->. by apply Hm.
    + by intros [_ ?].
Qed.

Lemma sorted_rows_update u i (t : gmap Z Goal) :
  Sql.sorted_rows (Sql.owned_by u) (Sql.update Sql.set_is_done (Sql.id_and_owner i u) t) =
  (fun kv => (kv.1, if decide (kv.1 = i) then Sql.set_is_done kv.2 else kv.2))
    <$> Sql.sorted_rows (Sql.owned_by u) t.
Proof.
  apply strict_sorted_ext.
  - apply sorted_rows_strict.
  - apply (StronglySorted_fmap _ Sql.id_strictly_desc); [|apply sorted_rows_strict].
    by intros [??] [??].
  - intros [k g]. rewrite list_elem_of_fmap, elem_of_sorted_rows, lookup_update.
    unfold Sql.owned_by. simpl. split.
    + destruct (t !! k) as [g0|] eqn:Hk; simpl; [|by intros [? _]].
      intros [[= <-] Hu]. exists (k, g0). simpl. split.
      * f_equal. repeat case_decide; try done; simpl in *; intuition congruence.
      * apply elem_of_sorted_rows. simpl. split; [done|].
        unfold Sql.owned_by. simpl. by case_decide.
    + intros ([k0 g0] & [= -> ->] & [Hk Hu]%elem_of_sorted_rows).
      simpl in *. rewrite Hk. simpl. unfold Sql.owned_by in Hu. simpl in Hu.
      split; [|by case_decide].
      f_equal. repeat case_decide; try done; intuition congruence.
Qed.

End StoreComposition.

Lemma columns_filter_id i (l : list (Z * Goal)) :
  Sql.columns <$> filter (fun kv => kv.1 <> i) l = without_id i (Sql.columns <$> l).
Proof.
  unfold without_id. induction l as [|[k g] l IH]; [done|].
  rewrite fmap_cons, !filter_cons. simpl.
  case_decide; [rewrite fmap_cons|]; by rewrite IH.
Qed.

Lemma columns_shown_done i (l : list (Z * Goal)) :
  Sql.columns <$> ((fun kv => (kv.1, if decide (kv.1 = i) then Sql.set_is_done kv.2 else kv.2))
                     <$> l) =
  shown_done i (Sql.columns <$> l).
Proof.
  unfold shown_done. rewrite <- !list_fmap_compose.
  apply list_fmap_ext. intros _ [k g] _. simpl. by case_decide.
Qed.

(** X1: whatever other owners create, list, mark done or delete, a stored
    goal of mine stays exactly as it is, and my listing stays what it was. *)
Theorem other_owners_change_nothing (E : Env) (me : Z) (ops : list StoreOp) (w : World) :
  Forall (fun op => op_owner op <> me) ops ->
  (forall id g, goals w !! id = Some g -> user_id g = me ->
                goals (run_ops E ops w) !! id = Some g) /\
  returned (list_goals me (run_ops E ops w)) = returned (list_goals me w).
Proof.
  intros Hops. split.
  - intros id g Hg Hu. apply lookup_foreign_ops; [done|]. by rewrite Hu.
  - unfold returned, list_goals. simpl. by rewrite select_foreign_ops.
Qed.

Lemma other_owners_change_nothing_witness :
  Forall (fun op => op_owner op <> 7)
         [createGoal 8 buy_milk; markDone 8 1; deleteGoal 9 1; listGoals 8] /\
  returned (list_goals 7
              (run_ops test_env [createGoal 8 buy_milk; markDone 8 1; deleteGoal 9 1; listGoals 8]
                       world_one_goal)) =
  returned (list_goals 7 world_one_goal).
Proof.
  assert (Forall (fun op => op_owner op <> 7)
            [createGoal 8 buy_milk; markDone 8 1; deleteGoal 9 1; listGoals 8]) as Hops.
  { repeat constructor; simpl; lia. }
  split; [exact Hops|].
  exact (proj2 (other_owners_change_nothing test_env 7 _ world_one_goal Hops)).
Defined.

(** X2: ids are handed out in strictly increasing order and never twice:
    the id of a goal created later, after any store operations in between
    (deletions included), is greater than the id of a goal created before. *)
Theorem ids_strictly_increase (E : Env) (u1 u2 : Z) (t1 t2 : str)
    (ops : list StoreOp) (w : World) :
  exists id1 id2,
    returned (add_goal E u1 t1 w) = Some id1 /\
    returned (add_goal E u2 t2 (run_ops E ops (add_goal E u1 t1 w).2)) = Some id2 /\
    id1 < id2 /\
    goals (run_ops E ops (add_goal E u1 t1 w).2) !! id2 = None.
Proof.
  set (w1 := (add_goal E u1 t1 w).2).
  exists (Sql.next_rowid (goals w) (sqlite_sequence w)),
         (Sql.next_rowid (goals (run_ops E ops w1)) (sqlite_sequence (run_ops E ops w1))).
  split; [reflexivity|]. split; [reflexivity|].
  split; [|apply next_rowid_fresh].
  pose proof (sequence_mono_ops E ops w1 (seq_ok_add_goal E u1 t1 w)) as Hmono.
  change (sqlite_sequence w1) with (Sql.next_rowid (goals w) (sqlite_sequence w)) in Hmono.
  pose proof (next_rowid_above_seq (goals (run_ops E ops w1))
                (sqlite_sequence (run_ops E ops w1))).
  lia.
Qed.

(** X3: deleting a goal right after creating it succeeds and gives back the
    table as it was before, while the id stays spent: the counter keeps it. *)
Theorem create_then_delete_restores_table (E : Env) (u : Z) (t : str) (w : World) :
  exists id,
    returned (add_goal E u t w) = Some id /\
    returned (delete_goal u id (add_goal E u t w).2) = Some 1 /\
    goals (delete_goal u id (add_goal E u t w).2).2 = goals w /\
    sqlite_sequence (delete_goal u id (add_goal E u t w).2).2 = id.
Proof.
  set (id := Sql.next_rowid (goals w) (sqlite_sequence w)).
  set (w1 := (add_goal E u t w).2).
  exists id. split; [reflexivity|].
  pose proof (add_goal_lookup_new E u t w) as Hnew. fold id w1 in Hnew.
  split; [|split; [|reflexivity]].
  - unfold returned. rewrite delete_goal_result, Hnew. simpl. by rewrite decide_True.
  - change (goals (delete_goal u id w1).2)
      with (Sql.delete (Sql.id_and_owner id u) (goals w1)).
    apply map_eq. intros k. rewrite lookup_delete_where.
    destruct (decide (k = id)) as [->|Hk].
    + rewrite Hnew. simpl. rewrite decide_True by done.
      symmetry. apply next_rowid_fresh.
    + change (goals w1) with
        (<[id := mkGoal u t 0 (isoformat E (clock w + Z.of_N (elapsed E (clock w))))]>
           (goals w)).
      rewrite lookup_insert_ne by done.
      destruct (goals w !! k) as [g|]; [|done].
      rewrite decide_False; [done|]. by intros [? _].
Qed.

(** X4: after [delete_goal] the owner's listing is the listing from before
    without the row of that id, and after [mark_done] it is the listing from
    before with the row of that id shown as done; every other row keeps its
    place and content. *)
Theorem listing_follows_update_and_delete (u i : Z) (w : World) :
  returned (list_goals u (delete_goal u i w).2) =
    without_id i <$> returned (list_goals u w) /\
  returned (list_goals u (mark_done u i w).2) =
    shown_done i <$> returned (list_goals u w).
Proof.
  unfold returned, list_goals, delete_goal, mark_done, Sql.select. simpl. split.
  - by rewrite sorted_rows_delete, columns_filter_id.
  - by rewrite sorted_rows_update, columns_shown_done.
Qed.

(** ** Handlers and the store *)

Section HandlerFacts.

Context (E : Env).
Implicit Types w : World.

Lemma ask_openai_frame q w :
  db_part (ask_openai E q w).2 = db_part w /\ outbox (ask_openai E q w).2 = outbox w.
Proof.
  unfold ask_openai, try_except, mbind, M_bind, create.
  destruct (chat_completions_create E (ask_openai_request q)) as [r|e]; simpl.
  - unfold first_choice. destruct (choices r) as [|c cs]; simpl; [done|].
    by destruct (content c).
  - by destruct (isinstance_Exception e).
Qed.

Lemma ask_openai_raise q w e :
  (ask_openai E q w).1 = Raise e ->
  chat_completions_create E (ask_openai_request q) = Fails e /\
  isinstance_Exception e = false.
Proof.
  unfold ask_openai, try_except, mbind, M_bind, create.
  destruct (chat_completions_create E (ask_openai_request q)) as [r|e']; simpl.
  - unfold first_choice. destruct (choices r) as [|c cs]; simpl; [done|].
    by destruct (content c).
  - destruct (isinstance_Exception e') eqn:He; simpl; [done|]. by intros [= <-].
Qed.

Lemma cmd_ask_db message c w : db_part (cmd_ask E message c w).2 = db_part w.
Proof.
  unfold cmd_ask. destruct (PyStr.strip (default [] (args c))) as [|ch q]; [done|].
  unfold mbind, M_bind, answer. cbn [fst snd].
  set (w1 := push_outbox (mkSent THINKING None None) w).
  destruct (ask_openai_frame (ch :: q) w1) as [Hdb _].
  destruct (ask_openai E (ch :: q) w1) as [[a|e] w2]; exact Hdb.
Qed.

Lemma cmd_ask_raise message c w e :
  (cmd_ask E message c w).1 = Raise e ->
  exists req, chat_completions_create E req = Fails e /\ isinstance_Exception e = false.
Proof.
  unfold cmd_ask. destruct (PyStr.strip (default [] (args c))) as [|ch q]; [done|].
  unfold mbind, M_bind, answer. cbn [fst snd].
  set (w1 := push_outbox (mkSent THINKING None None) w).
  pose proof (ask_openai_raise (ch :: q) w1) as Hr.
  destruct (ask_openai E (ch :: q) w1) as [[a|e'] w2]; simpl in *; [done|].
  intros [= <-]. eexists. by apply Hr.
Qed.

Lemma no_op_turn message (h : M unit) :
  (forall w, db_part (h w).2 = db_part w) -> one_turn E message h.
Proof. intros H w. exists []. simpl. split; [lia|]. split; [constructor|apply H]. Qed.

Lemma start_handler_turn message :
  one_turn E message (start_handler message) /\
  fails_cleanly message (start_handler message).
Proof. split; [by apply no_op_turn|]. by intros w e. Qed.

Lemma cmd_ask_turn message c :
  one_turn E message (cmd_ask E message c) /\
  (endpoint_raises_exceptions E -> fails_cleanly message (cmd_ask E message c)).
Proof.
  split; [apply no_op_turn; intros w; apply cmd_ask_db|].
  intros Hexc w e (req & Hreq & He)%cmd_ask_raise.
  rewrite (Hexc req e Hreq) in He. done.
Qed.

Lemma cmd_addgoal_turn message c :
  one_turn E message (cmd_addgoal E message c) /\
  fails_cleanly message (cmd_addgoal E message c).
Proof.
  unfold cmd_addgoal.
  destruct (PyStr.strip (default [] (args c))) as [|ch t] eqn:Ht.
  { split; [by apply no_op_turn|]. by intros w e. }
  unfold mbind, M_bind, from_user_id.
  destruct (from_user message) as [u|] eqn:Hu.
  - split; [|intros w e Hr; by simpl in Hr].
    intros w. exists [createGoal u (ch :: t)].
    split; [simpl; lia|]. split; [|reflexivity].
    constructor; [|constructor]. split; [done|]. by intros u' t' [= <- <-].
  - split; [by apply no_op_turn|].
    intros w e [= <-]. split; [done|]. by left.
Qed.

Lemma cmd_goals_turn message :
  one_turn E message (cmd_goals message) /\
  fails_cleanly message (cmd_goals message).
Proof.
  unfold cmd_goals, mbind, M_bind, from_user_id, list_goals.
  destruct (from_user message) as [u|] eqn:Hu.
  - split.
    + apply no_op_turn. intros w. simpl.
      by destruct (Sql.select (Sql.owned_by u) (goals w)).
    + intros w e. simpl. by destruct (Sql.select (Sql.owned_by u) (goals w)).
  - split; [by apply no_op_turn|].
    intros w e [= <-]. split; [done|]. by left.
Qed.

Lemma cmd_done_turn message c :
  one_turn E message (cmd_done E message c) /\
  fails_cleanly message (cmd_done E message c).
Proof.
  unfold cmd_done. destruct (bad_id_argument E c).
  { split; [by apply no_op_turn|]. by intros w e. }
  unfold mbind, M_bind, from_user_id, int, sqlite_bind, mret, M_ret, raise.
  destruct (from_user message) as [u|] eqn:Hu; cbn beta iota.
  - destruct (py_int E (default [] (args c))) as [n|]; cbn beta iota.
    + destruct (sqlite_int n); cbn beta iota.
      * split; [|intros w e Hr; by simpl in Hr].
        intros w. exists [markDone u n].
        split; [simpl; lia|]. split; [|reflexivity].
        constructor; [|constructor]. split; [done|]. by intros u' t'.
      * split; [by apply no_op_turn|].
        intros w e [= <-]. split; [done|]. by right; right.
    + split; [by apply no_op_turn|].
      intros w e [= <-]. split; [done|]. by right; left.
  - split; [by apply no_op_turn|].
    intros w e [= <-]. split; [done|]. by left.
Qed.

Lemma cmd_del_turn message c :
  one_turn E message (cmd_del E message c) /\
  fails_cleanly message (cmd_del E message c).
Proof.
  unfold cmd_del. destruct (bad_id_argument E c).
  { split; [by apply no_op_turn|]. by intros w e. }
  unfold mbind, M_bind, from_user_id, int, sqlite_bind, mret, M_ret, raise.
  destruct (from_user message) as [u|] eqn:Hu; cbn beta iota.
  - destruct (py_int E (default [] (args c))) as [n|]; cbn beta iota.
    + destruct (sqlite_int n); cbn beta iota.
      * split; [|intros w e Hr; by simpl in Hr].
        intros w. exists [deleteGoal u n].
        split; [simpl; lia|]. split; [|reflexivity].
        constructor; [|constructor]. split; [done|]. by intros u' t'.
      * split; [by apply no_op_turn|].
        intros w e [= <-]. split; [done|]. by right; right.
    + split; [by apply no_op_turn|].
      intros w e [= <-]. split; [done|]. by right; left.
  - split; [by apply no_op_turn|].
    intros w e [= <-]. split; [done|]. by left.
Qed.

Lemma handle_buttons_turn message :
  one_turn E message (handle_buttons message) /\
  fails_cleanly message (handle_buttons message).
Proof.
  unfold handle_buttons.
  repeat (match goal with
          | |- context [text_is message ?l] => destruct (text_is message l)
          end;
          [first [apply cmd_goals_turn | split; [by apply no_op_turn|by intros w e]]|]).
  split; [by apply no_op_turn|by intros w e].
Qed.

(** What [resolve] picks among the registered handlers, with a command for
    the handlers that take one. *)
Lemma resolve_registered_cases message cb kw :
  resolve E registered_before_main message = Some (cb, kw) ->
  cb = cb_start_handler \/ cb = cb_cmd_goals \/ cb = cb_handle_buttons \/
  exists c, kw = Some c /\
            (cb = cb_cmd_ask \/ cb = cb_cmd_addgoal \/ cb = cb_cmd_done \/ cb = cb_cmd_del).
Proof.
  unfold registered_before_main. cbn [resolve check].
  repeat (match goal with
          | |- context [Command E ?n message] =>
              destruct (Command E n message) as [?c|]; cbn [fmap option_fmap option_map];
              [intros [= <- <-]; eauto 10|]
          end).
  intros [= <- <-]. eauto.
Qed.

Lemma feed_update_turn message :
  one_turn E message (feed_update E registered_before_main message) /\
  (endpoint_raises_exceptions E ->
   fails_cleanly message (feed_update E registered_before_main message)).
Proof.
  unfold feed_update.
  destruct (resolve E registered_before_main message) as [[cb kw]|] eqn:Hr.
  2: { split; [by apply no_op_turn|]. by intros _ w e. }
  destruct (resolve_registered_cases message cb kw Hr)
    as [->|[->|[->|(c & -> & [->|[->|[->| ->]]])]]]; simpl.
  - destruct (start_handler_turn message). by split.
  - destruct (cmd_goals_turn message). by split.
  - destruct (handle_buttons_turn message). by split.
  - apply cmd_ask_turn.
  - destruct (cmd_addgoal_turn message c). by split.
  - destruct (cmd_done_turn message c). by split.
  - destruct (cmd_del_turn message c). by split.
Qed.

End HandlerFacts.

(** ** A turn and the store *)

Section TurnFacts.

Context (E : Env).
Implicit Types w : World.

Lemma db_part_inv w1 w2 :
  db_part w1 = db_part w2 ->
  goals w1 = goals w2 /\ sqlite_sequence w1 = sqlite_sequence w2 /\ clock w1 = clock w2.
Proof. unfold db_part. by intros [= -> -> ->]. Qed.

Lemma rows_ok_run_ops ops w :
  rows_ok w -> Forall (fun op => forall u t, op = createGoal u t -> t <> []) ops ->
  rows_ok (run_ops E ops w).
Proof.
  intros Hok Hops. revert w Hok.
  induction Hops as [|op ops Hop _ IH]; intros w Hok; [done|].
  simpl. apply IH. intros k g.
  destruct op as [u t|u|u i|u i]; simpl.
  - rewrite lookup_insert_Some. intros [[_ <-]|[_ Hk]]; [|by apply (Hok k g)].
    simpl. split; [by apply (Hop u t)|by left].
  - apply Hok.
  - rewrite lookup_update. destruct (goals w !! k) as [g0|] eqn:Hk; simpl; [|done].
    intros [= <-]. destruct (Hok k g0 Hk) as [Ht Hd].
    case_decide; [|done]. simpl. split; [done|by right].
  - rewrite lookup_delete_where. destruct (goals w !! k) as [g0|] eqn:Hk; [|done].
    case_decide; [done|]. intros [= <-]. by apply (Hok k g0).
Qed.

Lemma seq_ok_db w1 w2 : db_part w1 = db_part w2 -> seq_ok w2 -> seq_ok w1.
Proof. intros (Hg & Hs & _)%db_part_inv. unfold seq_ok. by rewrite Hg, Hs. Qed.

End TurnFacts.

(** X5: whatever the message, a turn does to the database what at most one
    store operation does, and that operation is done for the sender of the
    message; a goal it creates has a non-empty text. *)
Theorem each_turn_is_one_store_operation (E : Env) (message : Message) (w : World) :
  exists ops,
    (length ops <= 1)%nat /\
    Forall (acts_for message) ops /\
    db_part (feed_update E registered_before_main message w).2 =
    db_part (run_ops E ops w).
Proof. apply (proj1 (feed_update_turn E message)). Qed.

(** X6: handling a message keeps the table well formed: after the turn the
    counter is still at or above every id, every stored text is non-empty
    and every [is_done] is 0 or 1. *)
Theorem turn_keeps_table_well_formed (E : Env) (message : Message) (w : World) :
  seq_ok w -> rows_ok w ->
  seq_ok (feed_update E registered_before_main message w).2 /\
  rows_ok (feed_update E registered_before_main message w).2.
Proof.
  intros Hseq Hrows.
  destruct (proj1 (feed_update_turn E message) w) as (ops & _ & Hact & Hdb).
  split.
  - eapply seq_ok_db; [exact Hdb|]. by apply seq_ok_run_ops.
  - destruct (db_part_inv _ _ Hdb) as (Hg & _ & _). unfold rows_ok. rewrite Hg.
    apply rows_ok_run_ops; [done|].
    eapply Forall_impl; [exact Hact|]. intros op (_ & Ht). exact Ht.
Qed.

Lemma turn_keeps_table_well_formed_witness :
  seq_ok world_one_goal /\ rows_ok world_one_goal /\
  seq_ok (feed_update test_env registered_before_main addgoal_walk world_one_goal).2 /\
  rows_ok (feed_update test_env registered_before_main addgoal_walk world_one_goal).2.
Proof.
  assert (seq_ok world_one_goal) as Hseq by compute_done.
  assert (rows_ok world_one_goal) as Hrows by compute_done.
  split; [exact Hseq|]. split; [exact Hrows|].
  exact (turn_keeps_table_well_formed test_env addgoal_walk world_one_goal Hseq Hrows).
Defined.

(** X7: a message of another sender changes nothing of mine: when the
    message does not come from the owner of a stored goal, the turn leaves
    that goal exactly as it is and leaves the owner's listing what it
    was. *)
Theorem turn_leaves_goals_of_others (E : Env) (message : Message) (w : World)
    (id : Z) (g : Goal) :
  goals w !! id = Some g ->
  from_user message <> Some (user_id g) ->
  goals (feed_update E registered_before_main message w).2 !! id = Some g /\
  returned (list_goals (user_id g) (feed_update E registered_before_main message w).2) =
  returned (list_goals (user_id g) w).
Proof.
  intros Hg Hother.
  destruct (proj1 (feed_update_turn E message) w) as (ops & _ & Hact & Hdb).
  destruct (db_part_inv _ _ Hdb) as (Hgoals & _ & _).
  assert (Forall (fun op => op_owner op <> user_id g) ops) as Hforeign.
  { eapply Forall_impl; [exact Hact|]. intros op (Hfrom & _) Heq.
    apply Hother. by rewrite Hfrom, Heq. }
  unfold returned, list_goals. simpl. rewrite Hgoals. split.
  - by apply lookup_foreign_ops.
  - by rewrite select_foreign_ops.
Qed.

Lemma turn_leaves_goals_of_others_witness :
  goals world_one_goal !! 1 = Some (mkGoal 7 buy_milk 0 (PyStr.of_int 1005)) /\
  from_user (mkMessage (Some 8) (Some (PyStr.lit "/del 1")) None) <> Some 7 /\
  goals (feed_update test_env registered_before_main
           (mkMessage (Some 8) (Some (PyStr.lit "/del 1")) None) world_one_goal).2 !! 1 =
  Some (mkGoal 7 buy_milk 0 (PyStr.of_int 1005)).
Proof.
  assert (from_user (mkMessage (Some 8) (Some (PyStr.lit "/del 1")) None) <> Some 7)
    as Hother by (by intros [=]).
  split; [reflexivity|]. split; [exact Hother|].
  exact (proj1 (turn_leaves_goals_of_others test_env
                  (mkMessage (Some 8) (Some (PyStr.lit "/del 1")) None) world_one_goal 1
                  (mkGoal 7 buy_milk 0 (PyStr.of_int 1005)) eq_refl Hother)).
Defined.



(** ** The handlers one by one *)

Lemma update_hit (t : gmap Z Goal) n u g :
  t !! n = Some g -> user_id g = u ->
  Sql.update Sql.set_is_done (Sql.id_and_owner n u) t = <[n := Sql.set_is_done g]> t.
Proof.
  intros Hg Hu. apply map_eq. intros k. rewrite lookup_update, lookup_insert.
  case_decide as Hk.
  - subst k. rewrite Hg. simpl. by rewrite decide_True.
  - destruct (t !! k) as [g0|]; simpl; [|done].
    rewrite decide_False; [done|]. intros [-> _]. done.
Qed.

Lemma delete_hit (t : gmap Z Goal) n u g :
  t !! n = Some g -> user_id g = u ->
  Sql.delete (Sql.id_and_owner n u) t = delete n t.
Proof.
  intros Hg Hu. apply map_eq. intros k. rewrite lookup_delete_where, lookup_delete.
  case_decide as Hk.
  - subst k. rewrite Hg. by rewrite decide_True.
  - destruct (t !! k) as [g0|]; [|done].
    rewrite decide_False; [done|]. intros [-> _]. done.
Qed.

Lemma good_id_argument E c a :
  args c = Some a -> isdigit E a = true -> bad_id_argument E c = false.
Proof. intros Ha Hd. unfold bad_id_argument. by rewrite Ha, Hd. Qed.

(** X10: each of the six commands is handled by the handler registered for
    it, with the parsed command as argument, whatever the order of the
    registrations. *)
Theorem every_command_reaches_its_handler (E : Env) (name : string) (cb : Callback)
    (message : Message) (c : CommandObject) (w : World) :
  (name, cb) ∈ command_table -> Command E name message = Some c ->
  resolve E registered_before_main message = Some (cb, Some c) /\
  feed_update E registered_before_main message w = call E cb message (Some c) w.
Proof.
  intros Hin Hc.
  assert (resolve E registered_before_main message = Some (cb, Some c)) as Hr.
  { unfold command_table in Hin. unfold registered_before_main. cbn [resolve check].
    repeat (apply elem_of_cons in Hin as [[= -> ->]|Hin];
            [repeat (first [ rewrite Hc
                           | rewrite (Command_other E _ _ message c Hc) by (by vm_compute) ];
                     cbn [fmap option_fmap option_map]);
             reflexivity|]).
    by apply elem_of_nil in Hin. }
  split; [done|]. unfold feed_update. by rewrite Hr.
Qed.

Lemma every_command_reaches_its_handler_witness :
  ("done"%string, cb_cmd_done) ∈ command_table /\
  resolve test_env registered_before_main done_minus_five =
    Some (cb_cmd_done,
          Some (mkCommandObject 47%N (PyStr.lit "done") None (Some (PyStr.lit "-5")))).
Proof.
  assert (("done"%string, cb_cmd_done) ∈ command_table) as Hin.
  { unfold command_table. do 4 apply list_elem_of_further. apply list_elem_of_here. }
  split; [exact Hin|].
  exact (proj1 (every_command_reaches_its_handler test_env "done" cb_cmd_done done_minus_five
                  (mkCommandObject 47%N (PyStr.lit "done") None (Some (PyStr.lit "-5")))
                  world_one_goal Hin eq_refl)).
Defined.

(** X11: a message that is none of the six commands and whose text is none
    of the four menu labels (a photo without caption, plain chat text, an
    unknown command) is answered with the request to choose from the menu,
    with the menu keyboard, and nothing else happens. *)
Theorem other_messages_get_the_menu (E : Env) (message : Message) (w : World) :
  no_command E message -> no_menu_label message ->
  feed_update E registered_before_main message w = (Ret tt, push_outbox DEFAULT_REPLY w).
Proof.
  unfold no_command, no_menu_label, command_table, menu_labels.
  cbn [fmap list_fmap fst]. rewrite !Forall_cons.
  intros (H1 & H2 & H3 & H4 & H5 & H6 & _) (L1 & L2 & L3 & L4 & _).
  unfold feed_update, registered_before_main. cbn [resolve check].
  rewrite H1, H2, H3, H4, H5, H6. cbn [fmap option_fmap option_map call].
  unfold handle_buttons, text_is.
  rewrite (bool_decide_false _ L1), (bool_decide_false _ L2),
          (bool_decide_false _ L3), (bool_decide_false _ L4).
  reflexivity.
Qed.

Lemma other_messages_get_the_menu_witness :
  no_command test_env (mkMessage (Some 7) None None) /\
  no_menu_label (mkMessage (Some 7) None None) /\
  feed_update test_env registered_before_main (mkMessage (Some 7) None None) world_one_goal =
    (Ret tt, push_outbox DEFAULT_REPLY world_one_goal).
Proof.
  assert (no_command test_env (mkMessage (Some 7) None None)) as Hc.
  { unfold no_command, command_table. cbn [fmap list_fmap fst]. repeat constructor. }
  assert (no_menu_label (mkMessage (Some 7) None None)) as Hl.
  { unfold no_menu_label, menu_labels. repeat (constructor; [by intros [=]|]). constructor. }
  split; [exact Hc|]. split; [exact Hl|].
  exact (other_messages_get_the_menu test_env (mkMessage (Some 7) None None) world_one_goal
           Hc Hl).
Defined.

Lemma cmd_goals_sender m1 m2 w :
  from_user m1 = from_user m2 -> cmd_goals m1 w = cmd_goals m2 w.
Proof. intros H. unfold cmd_goals, from_user_id. by rewrite H. Qed.

Lemma resolve_my_goals_button E sender caption :
  resolve E registered_before_main
    (mkMessage sender (Some (PyStr.lit "🎯 Мої цілі")) caption) =
  Some (cb_handle_buttons, None).
Proof. vm_compute. reflexivity. Qed.

Lemma resolve_goals_command E sender caption :
  exists c,
    resolve E registered_before_main (mkMessage sender (Some (PyStr.lit "/goals")) caption) =
    Some (cb_cmd_goals, Some c).
Proof. eexists. vm_compute. reflexivity. Qed.

Lemma handle_my_goals_button sender caption w :
  handle_buttons (mkMessage sender (Some (PyStr.lit "🎯 Мої цілі")) caption) w =
  cmd_goals (mkMessage sender (Some (PyStr.lit "🎯 Мої цілі")) caption) w.
Proof.
  unfold handle_buttons, text_is. cbn [msg_text].
  rewrite bool_decide_false by (vm_compute; discriminate).
  rewrite bool_decide_true by reflexivity.
  reflexivity.
Qed.

(** X12: pressing the menu button "My goals" does what the command
    [/goals] does, for any sender and in any world. *)
Theorem my_goals_button_is_goals_command (E : Env) (sender : option Z)
    (caption1 caption2 : option str) (w : World) :
  feed_update E registered_before_main
    (mkMessage sender (Some (PyStr.lit "🎯 Мої цілі")) caption1) w =
  feed_update E registered_before_main
    (mkMessage sender (Some (PyStr.lit "/goals")) caption2) w.
Proof.
  unfold feed_update.
  rewrite resolve_my_goals_button.
  destruct (resolve_goals_command E sender caption2) as [c ->].
  cbn [call]. rewrite handle_my_goals_button.
  by apply cmd_goals_sender.
Qed.



Lemma mark_done_unfold u n w :
  mark_done u n w =
  (Ret (Sql.rowcount (Sql.id_and_owner n u) (goals w)),
   set_goals (Sql.update Sql.set_is_done (Sql.id_and_owner n u) (goals w)) w).
Proof. reflexivity. Qed.

Lemma delete_goal_unfold u n w :
  delete_goal u n w =
  (Ret (Sql.rowcount (Sql.id_and_owner n u) (goals w)),
   set_goals (Sql.delete (Sql.id_and_owner n u) (goals w)) w).
Proof. reflexivity. Qed.

(** X14: for a digit argument that [int()] reads as [n], [cmd_done] has
    three outcomes.  When [n] does not fit in 64 bits the driver raises
    [OverflowError], nothing is sent and nothing changes.  Otherwise it
    answers "done" exactly when goal [n] exists and belongs to the sender,
    and then that row and no other is set to done; and it answers "not
    found", with the table untouched, when there is no such goal. *)
Theorem done_reply_tells_the_truth (E : Env) (message : Message) (c : CommandObject)
    (u n : Z) (a : str) (w : World) :
  from_user message = Some u -> args c = Some a ->
  isdigit E a = true -> py_int E a = Some n ->
  (sqlite_int n = false /\ cmd_done E message c w = (Raise OverflowError, w)) \/
  (sqlite_int n = true /\
   exists g, goals w !! n = Some g /\ user_id g = u /\
             cmd_done E message c w =
             (Ret tt, push_outbox DONE_REPLY
                        (set_goals (<[n := Sql.set_is_done g]> (goals w)) w))) \/
  (sqlite_int n = true /\
   (forall g, goals w !! n = Some g -> user_id g <> u) /\
   cmd_done E message c w = (Ret tt, push_outbox NOT_FOUND_REPLY w)).
Proof.
  intros Hu Ha Hd Hn.
  unfold cmd_done. rewrite (good_id_argument E c a Ha Hd).
  unfold mbind, M_bind, from_user_id, int, mret, M_ret, sqlite_bind, raise.
  rewrite Hu, Ha. cbn [from_option id].
  rewrite Hn. cbn beta iota.
  destruct (sqlite_int n); [right|by left].
  destruct (goals w !! n) as [g|] eqn:Hg; [destruct (decide (user_id g = u)) as [Hgu|Hgu]|].
  - left. split; [done|]. exists g. split; [done|]. split; [done|].
    rewrite mark_done_unfold, rowcount_id_and_owner, Hg, (decide_True _ _ Hgu).
    by rewrite (update_hit _ n u g Hg Hgu).
  - assert (forall g', goals w !! n = Some g' -> user_id g' <> u) as Hno.
    { intros g' Hg'. congruence. }
    right. split; [done|]. split; [|by rewrite mark_done_no_match].
    intros g' [= <-]. done.
  - assert (forall g', goals w !! n = Some g' -> user_id g' <> u) as Hno.
    { intros g' Hg'. congruence. }
    right. split; [done|]. split; [done|]. by rewrite mark_done_no_match.
Qed.

Lemma done_reply_tells_the_truth_witness :
  from_user done_two_to_the_63 = Some 7 /\
  args done_huge = Some (PyStr.lit "9223372036854775808") /\
  isdigit test_env (PyStr.lit "9223372036854775808") = true /\
  py_int test_env (PyStr.lit "9223372036854775808") = Some (2 ^ 63) /\
  ((sqlite_int (2 ^ 63) = false /\
    cmd_done test_env done_two_to_the_63 done_huge world_one_goal =
    (Raise OverflowError, world_one_goal)) \/
   (sqlite_int (2 ^ 63) = true /\
    exists g, goals world_one_goal !! (2 ^ 63) = Some g /\ user_id g = 7 /\
              cmd_done test_env done_two_to_the_63 done_huge world_one_goal =
              (Ret tt, push_outbox DONE_REPLY
                         (set_goals (<[2 ^ 63 := Sql.set_is_done g]> (goals world_one_goal))
                                    world_one_goal))) \/
   (sqlite_int (2 ^ 63) = true /\
    (forall g, goals world_one_goal !! (2 ^ 63) = Some g -> user_id g <> 7) /\
    cmd_done test_env done_two_to_the_63 done_huge world_one_goal =
    (Ret tt, push_outbox NOT_FOUND_REPLY world_one_goal))).
Proof.
  repeat (split; [reflexivity|]).
  exact (done_reply_tells_the_truth test_env done_two_to_the_63 done_huge 7 (2 ^ 63)
           (PyStr.lit "9223372036854775808") world_one_goal
           eq_refl eq_refl eq_refl eq_refl).
Defined.

(** X15: for a digit argument that [int()] reads as [n], [cmd_del] has three
    outcomes.  When [n] does not fit in 64 bits the driver raises
    [OverflowError], nothing is sent and nothing changes.  Otherwise it
    answers "deleted" exactly when goal [n] exists and belongs to the
    sender, and then that row and no other is removed; and it answers "not
    found", with the table untouched, when there is no such goal. *)
Theorem del_reply_tells_the_truth (E : Env) (message : Message) (c : CommandObject)
    (u n : Z) (a : str) (w : World) :
  from_user message = Some u -> args c = Some a ->
  isdigit E a = true -> py_int E a = Some n ->
  (sqlite_int n = false /\ cmd_del E message c w = (Raise OverflowError, w)) \/
  (sqlite_int n = true /\
   exists g, goals w !! n = Some g /\ user_id g = u /\
             cmd_del E message c w =
             (Ret tt, push_outbox DELETED_REPLY (set_goals (delete n (goals w)) w))) \/
  (sqlite_int n = true /\
   (forall g, goals w !! n = Some g -> user_id g <> u) /\
   cmd_del E message c w = (Ret tt, push_outbox NOT_FOUND_REPLY w)).
Proof.
  intros Hu Ha Hd Hn.
  unfold cmd_del. rewrite (good_id_argument E c a Ha Hd).
  unfold mbind, M_bind, from_user_id, int, mret, M_ret, sqlite_bind, raise.
  rewrite Hu, Ha. cbn [from_option id].
  rewrite Hn. cbn beta iota.
  destruct (sqlite_int n); [right|by left].
  destruct (goals w !! n) as [g|] eqn:Hg; [destruct (decide (user_id g = u)) as [Hgu|Hgu]|].
  - left. split; [done|]. exists g. split; [done|]. split; [done|].
    rewrite delete_goal_unfold, rowcount_id_and_owner, Hg, (decide_True _ _ Hgu).
    by rewrite (delete_hit _ n u g Hg Hgu).
  - assert (forall g', goals w !! n = Some g' -> user_id g' <> u) as Hno.
    { intros g' Hg'. congruence. }
    right. split; [done|]. split; [|by rewrite delete_goal_no_match].
    intros g' [= <-]. done.
  - assert (forall g', goals w !! n = Some g' -> user_id g' <> u) as Hno.
    { intros g' Hg'. congruence. }
    right. split; [done|]. split; [done|]. by rewrite delete_goal_no_match.
Qed.

Lemma del_reply_tells_the_truth_witness :
  from_user from_owner_7 = Some 7 /\ args del_one = Some (PyStr.lit "1") /\
  isdigit test_env (PyStr.lit "1") = true /\ py_int test_env (PyStr.lit "1") = Some 1 /\
  ((sqlite_int 1 = false /\
    cmd_del test_env from_owner_7 del_one world_one_goal =
    (Raise OverflowError, world_one_goal)) \/
   (sqlite_int 1 = true /\
    exists g, goals world_one_goal !! 1 = Some g /\ user_id g = 7 /\
              cmd_del test_env from_owner_7 del_one world_one_goal =
              (Ret tt, push_outbox DELETED_REPLY
                         (set_goals (delete 1 (goals world_one_goal)) world_one_goal))) \/
   (sqlite_int 1 = true /\
    (forall g, goals world_one_goal !! 1 = Some g -> user_id g <> 7) /\
    cmd_del test_env from_owner_7 del_one world_one_goal =
    (Ret tt, push_outbox NOT_FOUND_REPLY world_one_goal))).
Proof.
  repeat (split; [reflexivity|]).
  exact (del_reply_tells_the_truth test_env from_owner_7 del_one 7 1 (PyStr.lit "1")
           world_one_goal eq_refl eq_refl eq_refl eq_refl).
Defined.

(** X16: an argument that [isdigit] accepts and [int()] rejects (a
    superscript digit, for one) is not answered with the usage hint:
    [cmd_done] and [cmd_del] end in [ValueError], with nothing sent and
    nothing changed. *)
Theorem digits_that_int_rejects (E : Env) (message : Message) (c : CommandObject)
    (u : Z) (a : str) (w : World) :
  from_user message = Some u -> args c = Some a ->
  isdigit E a = true -> py_int E a = None ->
  cmd_done E message c w = (Raise ValueError, w) /\
  cmd_del E message c w = (Raise ValueError, w).
Proof.
  intros Hu Ha Hd Hn.
  unfold cmd_done, cmd_del. rewrite (good_id_argument E c a Ha Hd).
  unfold mbind, M_bind, from_user_id, int, mret, M_ret, raise. rewrite Hu, Ha. cbn [from_option id].
  by rewrite Hn.
Qed.

Lemma digits_that_int_rejects_witness :
  from_user from_owner_7 = Some 7 /\ args done_superscript = Some (PyStr.lit "²") /\
  isdigit superscript_env (PyStr.lit "²") = true /\
  py_int superscript_env (PyStr.lit "²") = None /\
  cmd_done superscript_env from_owner_7 done_superscript world_one_goal =
    (Raise ValueError, world_one_goal).
Proof.
  repeat (split; [reflexivity|]).
  exact (proj1 (digits_that_int_rejects superscript_env from_owner_7 done_superscript 7
                  (PyStr.lit "²") world_one_goal eq_refl eq_refl eq_refl eq_refl)).
Defined.



(** X18: for a message without sender, [cmd_goals] ends in
    [AttributeError], and so do [cmd_addgoal] with a non-blank argument and
    [cmd_done] and [cmd_del] with a digit argument, before anything is sent
    or changed. *)
Theorem goal_commands_need_a_sender (E : Env) (message : Message) (c : CommandObject)
    (w : World) :
  from_user message = None ->
  cmd_goals message w = (Raise AttributeError, w) /\
  (PyStr.strip (default [] (args c)) <> [] ->
   cmd_addgoal E message c w = (Raise AttributeError, w)) /\
  (bad_id_argument E c = false ->
   cmd_done E message c w = (Raise AttributeError, w) /\
   cmd_del E message c w = (Raise AttributeError, w)).
Proof.
  intros Hu. split; [|split].
  - unfold cmd_goals, mbind, M_bind, from_user_id. by rewrite Hu.
  - intros Hne. unfold cmd_addgoal.
    destruct (PyStr.strip (default [] (args c))); [done|].
    unfold mbind, M_bind, from_user_id. by rewrite Hu.
  - intros Hok. unfold cmd_done, cmd_del. rewrite Hok.
    unfold mbind, M_bind, from_user_id. by rewrite Hu.
Qed.

Lemma goal_commands_need_a_sender_witness :
  from_user no_sender = None /\
  cmd_goals no_sender world_one_goal = (Raise AttributeError, world_one_goal).
Proof.
  split; [reflexivity|].
  exact (proj1 (goal_commands_need_a_sender test_env no_sender done_one world_one_goal
                  eq_refl)).
Defined.
